(** * dspy_code_gen.py: the generate / execute / repair pipeline

    A shallow embedding of [src/dspy_code_gen.py].  The script talks to three
    collaborators it does not define: the dspy stage modules (which query the
    model endpoint), the [BootstrapFewShot] teleprompter, and Python's [exec].
    They are the fields of the class [Host]; every definition below is
    parametric in the host, so a theorem holds whatever the model answers and
    whatever the evaluated text does.  The script itself is embedded in a
    small monad [M] that threads the host's world, records every interaction
    in a trace, and propagates Python exceptions.

    The methods are embedded three times.  Section [Embedding] follows the
    text of the script, with the recursion of [_run_code_and_tests] on fuel
    and with [self] and [test_result] passed by value.  Module [CPython] is
    the same recursion on the finite stack of the interpreter.  Module
    [InFrame] keeps [self] and [test_result] in the world, where the text
    that [exec] evaluates can assign to them. *)

From Stdlib Require Import Ascii String.
From stdpp Require Import base strings list gmap.

(** ** Python values *)

(** The newline character of the script's ["\n"] escapes. *)
Definition nl : string := String "010"%char "".

(** What a raised object has to say: its text, or, when its own [__str__]
    raises, the class, the kind and the text of what that raises.  A plain
    string stands for a text.  An object says the same thing each time it is
    asked. *)
Inductive message : Type :=
| Text (s : string)
| Unprintable (raised_class : string) (raised_is_Exception : bool)
    (raised_text : string).

Coercion Text : string >-> message.

(** A raised exception: its class name, whether the class derives from
    [Exception] (what [except Exception] tests), and what it has to say. *)
Record exn := Exn {
  exn_class : string;
  is_Exception : bool;
  text : message
}.

(** What a collaborator call comes back with. *)
Inductive reply (A : Type) : Type :=
| Ok (a : A)
| Err (e : exn).
Arguments Ok {A} a.
Arguments Err {A} e.

(** [str(e)]: the text of the exception, unless taking it raises. *)
Definition str (e : exn) : reply string :=
  match text e with
  | Text s => Ok s
  | Unprintable raised_class raised_is_Exception raised_text =>
      Err (Exn raised_class raised_is_Exception raised_text)
  end.

(** How an embedded computation ends.  [Diverge] is the model running out of
    recursion fuel; Python has no such outcome: where the recursion does not
    end of itself, the interpreter ends it with [RecursionError]. *)
Inductive result (A : Type) : Type :=
| Return (a : A)
| Raise (e : exn)
| Diverge.
Arguments Return {A} a.
Arguments Raise {A} e.
Arguments Diverge {A}.

(** The four [dspy.Module] subclasses of the script. *)
Inductive module_class : Type :=
| CodeSignatureGenerator
| CodeGenerator
| UnitTestGenerator
| CodeFixer.

Global Instance module_class_eq_dec : EqDecision module_class.
Proof. solve_decision. Defined.

(** The input fields of the [dspy.ChainOfThought] signature each class builds
    in its [__init__]: ["task -> code_signature"], ["task, code_signature ->
    code"], ["task, code_signature -> test_1, test_2, edge_case_test_1"] and
    ["task, old_code, failed_test, error_message -> fixed_code"]. *)
Definition input_fields_of (cls : module_class) : list string :=
  match cls with
  | CodeSignatureGenerator => ["task"]
  | CodeGenerator => ["task"; "code_signature"]
  | UnitTestGenerator => ["task"; "code_signature"]
  | CodeFixer => ["task"; "old_code"; "failed_test"; "error_message"]
  end.

(** A [dspy.Example] built from a dictionary, then [with_inputs]: the record
    keeps every key of the dictionary and remembers which of them are
    inputs. *)
Record Example := MkExample {
  fields : gmap string string;
  input_keys : list string
}.

Definition dspy_Example (x : gmap string string) : Example :=
  MkExample x [].

Definition with_inputs (ex : Example) (keys : list string) : Example :=
  MkExample (fields ex) keys.

(** The prediction of the unit test generator: its three output fields. *)
Record TestCases := MkTests {
  test_1 : string;
  test_2 : string;
  edge_case_test_1 : string
}.

(** ** The process environment *)

(** [load_dotenv()] with its defaults: the variables of the [.env] file are
    added to the process environment, and a variable the process already has
    keeps its value.  [dotenv] is the content of the file, empty when there
    is none. *)
Definition load_dotenv (dotenv environ : gmap string string)
    : gmap string string :=
  environ ∪ dotenv.

(** [os.getenv(key)]: [None] for a variable that is not set. *)
Definition os_getenv (environ : gmap string string) (key : string)
    : option string :=
  environ !! key.

(** [os.environ[key] = value].  The mapping stores strings only: assigning
    [None] raises [TypeError]. *)
Definition environ_setitem (environ : gmap string string) (key : string)
    (value : option string) : reply (gmap string string) :=
  match value with
  | Some v => Ok (<[key := v]> environ)
  | None => Err (Exn "TypeError" true "str expected, not NoneType")
  end.

(** ** The argument vector *)

Definition default_task : string :=
  "A Python function to get the nth Fibonacci number".

(** [l[i]] on a list. *)
Definition getitem (l : list string) (i : nat) : reply string :=
  match l !! i with
  | Some x => Ok x
  | None => Err (Exn "IndexError" true "list index out of range")
  end.

(** Lines 173 to 177.  [and] evaluates its right operand only when the left
    one holds. *)
Definition task_of_argv (argv : list string) : reply string :=
  if bool_decide (2 < length argv) then
    match getitem argv 1 with
    | Err e => Err e
    | Ok flag =>
        if String.eqb flag "--task" then getitem argv 2 else Ok default_task
    end
  else Ok default_task.

(** ** The example bank of the [__main__] block *)

Definition unlines (ls : list string) : string := String.concat nl ls.

Definition example_bank : list (gmap string string) :=
  [ {[ "task" := "Write a Python function to check if a number is prime with the provided signature";
       "code_signature" := "def is_prime(n: int) -> bool:";
       "code" := unlines
         ["def is_prime(n):";
          "    if n < 2:";
          "        return False";
          "    for i in range(2, int(n**0.5) + 1):";
          "        if n % i == 0:";
          "            return False";
          "    return True"];
       "test_1" := "assert is_prime(2) == True";
       "test_2" := "assert is_prime(4) == False";
       "edge_case_test_1" := "assert is_prime(1) == False" ]};
    {[ "task" := "Create a Python class for a simple calculator with the provided signature";
       "code_signature" := "class Calculator { add(a: int, b: int) -> int, subtract(a: int, b: int) -> int, multiply(a: int, b: int) -> int, divide(a: int, b: int) -> int }";
       "code" := unlines
         ["class Calculator:";
          "    def add(self, a, b):";
          "        return a + b";
          "    def subtract(self, a, b):";
          "        return a - b";
          "    def multiply(self, a, b):";
          "        return a * b";
          "    def divide(self, a, b):";
          "        if b != 0:";
          "            return a / b";
          "        else:";
          "            raise ValueError('Cannot divide by zero')"];
       "test_1" := "assert Calculator().add(2, 3) == 5";
       "test_2" := "assert Calculator().subtract(5, 3) == 2";
       "edge_case_test_1" := "assert Calculator().multiply(0, 3) == 0" ]};
    {[ "task" := "Write a Python function to reverse a string with the provided signature";
       "code_signature" := "def reverse_string(s: str) -> str:";
       "code" := unlines
         ["def reverse_string(s):";
          "    return s[::-1]"];
       "test_1" := "assert reverse_string('hello') == 'olleh'";
       "test_2" := "assert reverse_string('Python') == 'nohtyP'";
       "edge_case_test_1" := "assert reverse_string('') == ''" ]};
    {[ "task" := "Write a Python function to find the sum of squares of first n natural numbers with the provided signature";
       "code_signature" := "def sum_of_squares(n: int) -> int:";
       "code" := unlines
         ["def sum_of_squares(n):";
          "    return sum(i**2 for i in range(1, n+1))"];
       "test_1" := "assert sum_of_squares(3) == 14";
       "test_2" := "assert sum_of_squares(5) == 55";
       "edge_case_test_1" := "assert sum_of_squares(0) == 0" ]} ].

(** ** The collaborators *)

(** [World] is everything the collaborators can observe or change (the
    interpreter's namespaces, the endpoint, its cache); [Module] is a dspy
    module object.  A stage call answers with its output field or raises;
    [py_exec src] evaluates program text and reports the exception it raised,
    if any.  The task and the candidate are Python strings, which nothing
    can change.  The pipeline [self] and the prediction [test_result] are
    objects that evaluated text can assign to: section [Embedding] passes
    them by value, module [InFrame] keeps them in the world. *)
Class Host := {
  World : Type;
  Module : Type;
  new_module : module_class → Module;
  BootstrapFewShot_compile :
    Module → list Example → World → reply Module * World;
  call_signature : Module → string → World → reply string * World;
  call_code_gen :
    Module → string → string → World → reply string * World;
  call_unit_test :
    Module → string → string → World → reply TestCases * World;
  call_code_fixer :
    Module → string → string → string → string → World →
    reply string * World;
  py_exec : string → World → option exn * World
}.

Section Embedding.
Context `{Host}.

(** ** Interaction traces *)

Inductive event : Type :=
| EvPrint (line : string)
| EvExec (source : string) (raised : option exn)
| EvCompile (cls : module_class) (trainset : list Example) (r : reply Module)
| EvSignature (task : string) (r : reply string)
| EvCodeGen (task code_signature : string) (r : reply string)
| EvUnitTest (task code_signature : string) (r : reply TestCases)
| EvCodeFixer (task old_code failed_test error_message : string)
    (r : reply string)
| EvConfigure (model : string) (max_tokens : nat).

(** ** The monad: world passing, a trace, exceptions *)

Record run (A : Type) : Type := Run {
  outcome : result A;
  final : World;
  trace : list event
}.
Arguments Run {A} outcome final trace.
Arguments outcome {A} r.
Arguments final {A} r.
Arguments trace {A} r.

Definition M (A : Type) : Type := World → run A.

(** [after evs r] is [r] preceded by the events [evs]. *)
Definition after {A} (evs : list event) (r : run A) : run A :=
  Run (outcome r) (final r) (evs ++ trace r).

Global Instance M_ret : MRet M := λ A a w, Run (Return a) w [].

Global Instance M_bind : MBind M := λ A B f m w,
  let r := m w in
  match outcome r with
  | Return a => after (trace r) (f a (final r))
  | Raise e => Run (Raise e) (final r) (trace r)
  | Diverge => Run Diverge (final r) (trace r)
  end.

Definition diverge {A} : M A := λ w, Run Diverge w [].

Definition of_reply {A} (r : reply A) : result A :=
  match r with
  | Ok a => Return a
  | Err e => Raise e
  end.

(** A computation of the interpreter itself that returns or raises. *)
Definition lift_reply {A} (r : reply A) : M A := λ w, Run (of_reply r) w [].

(** A collaborator call: run it on the world, log it with its reply, return
    or raise what it replied. *)
Definition ask {A} (call : World → reply A * World)
    (log : reply A → event) : M A := λ w,
  let '(r, w') := call w in Run (of_reply r) w' [log r].

(** [try: m / except Exception as e:] — the caught exception, if any.  An
    exception whose class does not derive from [Exception] passes through. *)
Definition try_except {A} (m : M A) : M (option exn) := λ w,
  let r := m w in
  match outcome r with
  | Return _ => Run (Return None) (final r) (trace r)
  | Raise e =>
      if is_Exception e then Run (Return (Some e)) (final r) (trace r)
      else Run (Raise e) (final r) (trace r)
  | Diverge => Run Diverge (final r) (trace r)
  end.

Definition print (line : string) : M unit := λ w,
  Run (Return tt) w [EvPrint line].

(** The builtin [exec(src)]. *)
Definition exec (src : string) : M unit := λ w,
  let '(raised, w') := py_exec src w in
  Run (match raised with None => Return tt | Some e => Raise e end)
      w' [EvExec src raised].

(** ** The class [CodeGenerationPipeline] *)

Record CodeGenerationPipeline : Type := MkPipeline {
  examples : list (gmap string string);
  trained_signature : Module;
  trained_code_gen : Module;
  trained_unit_test : Module;
  trained_code_fixer : Module
}.

(** [_compile_module(self, module_class, *input_fields)]; [self] is read for
    its [examples] only. *)
Definition _compile_module (self_examples : list (gmap string string))
    (cls : module_class) (input_fields : list string) : M Module :=
  let examples :=
    (λ x, with_inputs (dspy_Example x) input_fields) <$> self_examples in
  ask (BootstrapFewShot_compile (new_module cls) examples)
      (EvCompile cls examples).

Definition __init__ (examples : list (gmap string string))
    : M CodeGenerationPipeline :=
  trained_signature ← _compile_module examples CodeSignatureGenerator
                        ["task"];
  trained_code_gen ← _compile_module examples CodeGenerator
                       ["task"; "code_signature"];
  trained_unit_test ← _compile_module examples UnitTestGenerator
                        ["task"; "code_signature"];
  mret (MkPipeline examples trained_signature trained_code_gen
          trained_unit_test (new_module CodeFixer)).

Definition _fix_code (self : CodeGenerationPipeline)
    (task old_code failed_test error_message : string) : M string :=
  ask (call_code_fixer (trained_code_fixer self)
         task old_code failed_test error_message)
      (EvCodeFixer task old_code failed_test error_message).

Definition _print_results (signature_result code_result : string)
    (test_result : TestCases) : M unit :=
  print (nl +:+ "Generated code signature:" +:+ nl +:+ signature_result);;
  print (nl +:+ "Generated code:" +:+ nl +:+ code_result);;
  print (nl +:+ "Generated tests:");;
  print ("test_1: " +:+ test_1 test_result);;
  print ("test_2: " +:+ test_2 test_result);;
  print ("edge_case_test_1: " +:+ edge_case_test_1 test_result).

(** The [for test_name, test_code in ...] loop of [_run_code_and_tests].
    [retry] is the recursive call of the enclosing function; the result tells
    whether the loop body executed [return].  The handler takes [str(e)]
    twice, for the f-string of the report and as argument of [_fix_code];
    neither is inside a [try]. *)
Fixpoint for_each_test (retry : string → M unit)
    (self : CodeGenerationPipeline) (task code : string)
    (tests : list (string * string)) : M bool :=
  match tests with
  | [] => mret false
  | (test_name, test_code) :: rest =>
      caught ← try_except (exec test_code);
      match caught with
      | Some e =>
          said ← lift_reply (str e);
          print ("Test " +:+ test_name +:+ " failed with error: " +:+ said);;
          print "Re-generating the code with the execution feedback...";;
          error_message ← lift_reply (str e);
          fixed_code ← _fix_code self task code test_code error_message;
          print (nl +:+ "Fixed code:" +:+ nl +:+ fixed_code);;
          retry fixed_code;;
          mret true
      | None => for_each_test retry self task code rest
      end
  end.

(** The three tests in the order the loop visits them. *)
Definition named_tests (test_result : TestCases) : list (string * string) :=
  [("test_1", test_1 test_result);
   ("test_2", test_2 test_result);
   ("edge_case_test_1", edge_case_test_1 test_result)].

(** [fuel] bounds the depth of the recursion, for which the script has no
    bound of its own; [CPython._run_code_and_tests] has the bound of the
    interpreter.  [self] and [test_result] are passed by value;
    [InFrame._run_code_and_tests] reads them from the frame. *)
Fixpoint _run_code_and_tests (self : CodeGenerationPipeline) (fuel : nat)
    (task code : string) (test_result : TestCases) {struct fuel} : M unit :=
  match fuel with
  | O => diverge
  | S fuel =>
      print (nl +:+ "Running the code...");;
      caught ← try_except (exec code);
      match caught with
      | Some e =>
          said ← lift_reply (str e);
          print ("Code failed with error: " +:+ said);;
          print "Re-generating the code with the execution feedback...";;
          error_message ← lift_reply (str e);
          fixed_code ← _fix_code self task code "main code" error_message;
          print (nl +:+ "Fixed code:" +:+ nl +:+ fixed_code);;
          _run_code_and_tests self fuel task fixed_code test_result
      | None =>
          print "Running the tests...";;
          returned ← for_each_test
            (λ fixed_code,
               _run_code_and_tests self fuel task fixed_code test_result)
            self task code (named_tests test_result);
          if returned : bool then mret tt
          else print "All generated tests passed"
      end
  end.

(** The three f-strings [generate] passes as [task]. *)
Definition signature_task (task : string) : string :=
  "Write the signature for a Python function doing the following (if the function uses classes, also include the class definition and their methods): " +:+ task.

Definition code_task (task : string) : string :=
  "Write " +:+ task +:+ " with the provided code signature".

Definition test_task (task : string) : string :=
  "Generate unit tests for the following task with the provided code signature: " +:+ task.

(** Calling a trained module with keyword arguments, e.g.
    [self.trained_signature(task=...)], and reading the output field. *)
Definition invoke_signature (m : Module) (task : string) : M string :=
  ask (call_signature m task) (EvSignature task).

Definition invoke_code_gen (m : Module) (task code_signature : string)
    : M string :=
  ask (call_code_gen m task code_signature) (EvCodeGen task code_signature).

Definition invoke_unit_test (m : Module) (task code_signature : string)
    : M TestCases :=
  ask (call_unit_test m task code_signature)
      (EvUnitTest task code_signature).

Definition generate (self : CodeGenerationPipeline) (fuel : nat)
    (task : string) : M unit :=
  signature_result ←
    invoke_signature (trained_signature self)
      (signature_task task);
  code_result ←
    invoke_code_gen (trained_code_gen self)
      (code_task task) signature_result;
  test_result ←
    invoke_unit_test (trained_unit_test self)
      (test_task task) signature_result;
  _print_results signature_result code_result test_result;;
  _run_code_and_tests self fuel task code_result test_result.

(** ** The script: module level, then the [__main__] block *)

Definition dspy_configure (model : string) (max_tokens : nat) : M unit :=
  λ w, Run (Return tt) w [EvConfigure model max_tokens].

(** Lines 8 to 12: the credential, then the language model.  The result is
    the process environment the rest of the script runs in. *)
Definition module_level (dotenv environ : gmap string string)
    : M (gmap string string) :=
  let environ := load_dotenv dotenv environ in
  environ ← lift_reply
    (environ_setitem environ "OPENAI_API_KEY"
       (os_getenv environ "OPENAI_API_KEY"));
  dspy_configure "openai/gpt-4o" 1000;;
  mret environ.

Definition main (argv : list string) (fuel : nat) : M unit :=
  pipeline ← __init__ example_bank;
  task ← lift_reply (task_of_argv argv);
  generate pipeline fuel task.

Definition script (dotenv environ : gmap string string)
    (argv : list string) (fuel : nat) : M unit :=
  module_level dotenv environ;;
  main argv fuel.

End Embedding.

Arguments Run {H A} outcome final trace.
Arguments outcome {H A} r.
Arguments final {H A} r.
Arguments trace {H A} r.

(** ** The recursion limit of the interpreter *)

(** What CPython raises when a call does not fit on its stack. *)
Definition RecursionError : exn :=
  Exn "RecursionError" true "maximum recursion depth exceeded".

(** [sys.getrecursionlimit()]; the script does not change it.  No more than
    this many activations fit on the stack, whatever else is on it. *)
Definition recursion_limit : nat := 1000.

Module CPython.
Section Limited.
Context `{Host}.

(** [_run_code_and_tests] on a stack that has room for [frames] more
    activations of it.  The body is the one of the method; the call that does
    not fit raises [RecursionError].  Both recursive calls stand in an
    [except] block, outside every [try], so that nothing catches it. *)
Fixpoint _run_code_and_tests (self : CodeGenerationPipeline) (frames : nat)
    (task code : string) (test_result : TestCases) {struct frames} : M unit :=
  match frames with
  | O => λ w, Run (Raise RecursionError) w []
  | S frames =>
      print (nl +:+ "Running the code...");;
      caught ← try_except (exec code);
      match caught with
      | Some e =>
          said ← lift_reply (str e);
          print ("Code failed with error: " +:+ said);;
          print "Re-generating the code with the execution feedback...";;
          error_message ← lift_reply (str e);
          fixed_code ← _fix_code self task code "main code" error_message;
          print (nl +:+ "Fixed code:" +:+ nl +:+ fixed_code);;
          _run_code_and_tests self frames task fixed_code test_result
      | None =>
          print "Running the tests...";;
          returned ← for_each_test
            (λ fixed_code,
               _run_code_and_tests self frames task fixed_code test_result)
            self task code (named_tests test_result);
          if returned : bool then mret tt
          else print "All generated tests passed"
      end
  end.

End Limited.
End CPython.

(** ** The objects the evaluated text can reach *)

(** [exec(code)] at line 98 and [exec(test_code)] at line 112 run in the frame
    of the method, where the names [self] and [test_result] are bound: the
    evaluated text can read the two objects and assign to their attributes.
    The embedding above passes both by value, which is what the script does
    as long as the evaluated text assigns to neither.  A [Frame] puts the two
    objects in the world, where the evaluator reaches them:
    [self_object] and [test_result_object] read them, and [bind_test_result]
    is the assignment of line 78.  [self_object] holds the attributes that
    [__init__] sets; the methods stay those of the class. *)
Class Frame `{Host} := {
  self_object : World → CodeGenerationPipeline;
  test_result_object : World → TestCases;
  bind_test_result : TestCases → World → World;
  test_result_bound test_result w :
    test_result_object (bind_test_result test_result w) = test_result;
  self_unbound test_result w :
    self_object (bind_test_result test_result w) = self_object w
}.

Module InFrame.
Section Methods.
Context `{Frame}.

(** Reading an attribute of an object of the frame. *)
Definition read {A} (attribute : World → A) : M A := λ w,
  Run (Return (attribute w)) w [].

(** The assignment [test_result = ...] of line 78. *)
Definition assign_test_result (test_result : TestCases) : M unit := λ w,
  Run (Return tt) (bind_test_result test_result w) [].

(** [_fix_code]: [self.trained_code_fixer] is read when the call is made. *)
Definition _fix_code (task old_code failed_test error_message : string)
    : M string :=
  fixer ← read (λ w, trained_code_fixer (self_object w));
  ask (call_code_fixer fixer task old_code failed_test error_message)
      (EvCodeFixer task old_code failed_test error_message).

(** The loop of lines 108 to 119 over the list [tests], which line 108 has
    built before the first test is evaluated. *)
Fixpoint for_each_test (retry : string → M unit) (task code : string)
    (tests : list (string * string)) : M bool :=
  match tests with
  | [] => mret false
  | (test_name, test_code) :: rest =>
      caught ← try_except (exec test_code);
      match caught with
      | Some e =>
          said ← lift_reply (str e);
          print ("Test " +:+ test_name +:+ " failed with error: " +:+ said);;
          print "Re-generating the code with the execution feedback...";;
          error_message ← lift_reply (str e);
          fixed_code ← _fix_code task code test_code error_message;
          print (nl +:+ "Fixed code:" +:+ nl +:+ fixed_code);;
          retry fixed_code;;
          mret true
      | None => for_each_test retry task code rest
      end
  end.

(** [_run_code_and_tests]: the three attributes of [test_result] are read
    at lines 108 to 110, after the candidate has been evaluated. *)
Fixpoint _run_code_and_tests (fuel : nat) (task code : string)
    {struct fuel} : M unit :=
  match fuel with
  | O => diverge
  | S fuel =>
      print (nl +:+ "Running the code...");;
      caught ← try_except (exec code);
      match caught with
      | Some e =>
          said ← lift_reply (str e);
          print ("Code failed with error: " +:+ said);;
          print "Re-generating the code with the execution feedback...";;
          error_message ← lift_reply (str e);
          fixed_code ← _fix_code task code "main code" error_message;
          print (nl +:+ "Fixed code:" +:+ nl +:+ fixed_code);;
          _run_code_and_tests fuel task fixed_code
      | None =>
          print "Running the tests...";;
          tests ← read (λ w, named_tests (test_result_object w));
          returned ← for_each_test
            (λ fixed_code, _run_code_and_tests fuel task fixed_code)
            task code tests;
          if returned : bool then mret tt
          else print "All generated tests passed"
      end
  end.

Definition generate (fuel : nat) (task : string) : M unit :=
  trained_signature ← read (λ w, trained_signature (self_object w));
  signature_result ←
    invoke_signature trained_signature (signature_task task);
  trained_code_gen ← read (λ w, trained_code_gen (self_object w));
  code_result ←
    invoke_code_gen trained_code_gen (code_task task) signature_result;
  trained_unit_test ← read (λ w, trained_unit_test (self_object w));
  test_result ←
    invoke_unit_test trained_unit_test (test_task task) signature_result;
  assign_test_result test_result;;
  test_result ← read test_result_object;
  _print_results signature_result code_result test_result;;
  _run_code_and_tests fuel task code_result.

End Methods.
End InFrame.

(** ** Vocabulary of the statements *)

Section Vocabulary.
Context `{Host}.

(** A run of the fuel model read as a run of the interpreter: where the model
    stops for lack of fuel, the interpreter raises [RecursionError]. *)
Definition at_limit {A} (r : run A) : run A :=
  match outcome r with
  | Diverge => Run (Raise RecursionError) (final r) (trace r)
  | _ => r
  end.

(** How many times the code fixer was called in a trace. *)
Fixpoint repairs (t : list event) : nat :=
  match t with
  | [] => 0
  | EvCodeFixer _ _ _ _ _ :: t => S (repairs t)
  | _ :: t => repairs t
  end.

(** How many times the text [src] was evaluated in a trace. *)
Fixpoint executions_of (src : string) (t : list event) : nat :=
  match t with
  | [] => 0
  | EvExec s _ :: t =>
      (if String.eqb s src then 1 else 0) + executions_of src t
  | _ :: t => executions_of src t
  end.

(** The candidate held after a trace: the output of its last successful
    repair, or [code] when there is none. *)
Fixpoint candidate_after (code : string) (t : list event) : string :=
  match t with
  | [] => code
  | EvCodeFixer _ _ _ _ (Ok fixed_code) :: t => candidate_after fixed_code t
  | _ :: t => candidate_after code t
  end.

(** Evaluating the texts [srcs] one after the other: the world reached when
    none of them raises. *)
Fixpoint run_all (srcs : list string) (w : World) : option World :=
  match srcs with
  | [] => Some w
  | src :: rest =>
      match py_exec src w with
      | (None, w') => run_all rest w'
      | (Some _, _) => None
      end
  end.

(** The trace of one validation pass in which nothing raises. *)
Definition full_pass (code : string) (test_result : TestCases) : list event :=
  [EvPrint (nl +:+ "Running the code...");
   EvExec code None;
   EvPrint "Running the tests...";
   EvExec (test_1 test_result) None;
   EvExec (test_2 test_result) None;
   EvExec (edge_case_test_1 test_result) None;
   EvPrint "All generated tests passed"].

(** What [_print_results] prints. *)
Definition generation_report (signature_result code_result : string)
    (test_result : TestCases) : list event :=
  [EvPrint (nl +:+ "Generated code signature:" +:+ nl +:+ signature_result);
   EvPrint (nl +:+ "Generated code:" +:+ nl +:+ code_result);
   EvPrint (nl +:+ "Generated tests:");
   EvPrint ("test_1: " +:+ test_1 test_result);
   EvPrint ("test_2: " +:+ test_2 test_result);
   EvPrint ("edge_case_test_1: " +:+ edge_case_test_1 test_result)].

(** The texts of the three tests, in the order of the loop. *)
Definition test_sources (test_result : TestCases) : list string :=
  [test_1 test_result; test_2 test_result; edge_case_test_1 test_result].

(** What the script prints between a failure and the call of the fixer. *)
Definition failure_report (headline : string) : list event :=
  [EvPrint headline;
   EvPrint "Re-generating the code with the execution feedback..."].

(** The events of texts that were evaluated and did not raise. *)
Definition passes (srcs : list string) : list event :=
  (λ src, EvExec src None) <$> srcs.

(** What both [except] blocks of [_run_code_and_tests] do after their
    report: call the fixer, print its answer, validate it. *)
Definition repair_and_retry (self : CodeGenerationPipeline) (fuel : nat)
    (task code failed_test error_message : string) (test_result : TestCases)
    : M unit :=
  fixed_code ← _fix_code self task code failed_test error_message;
  print (nl +:+ "Fixed code:" +:+ nl +:+ fixed_code);;
  _run_code_and_tests self fuel task fixed_code test_result.

(** The tail of a trace from the reply [r] of the fixer on: the script prints
    the fixed code and validates it with [fuel] activations left, or stops
    where the fixer raised. *)
Definition after_repair (self : CodeGenerationPipeline) (fuel : nat)
    (task : string) (test_result : TestCases) (r : reply string) (w : World)
    : list event :=
  match r with
  | Ok fixed_code =>
      EvPrint (nl +:+ "Fixed code:" +:+ nl +:+ fixed_code)
      :: trace (_run_code_and_tests self fuel task fixed_code test_result w)
  | Err _ => []
  end.

(** The events of a validation in which the signature and the tests are
    frozen: nothing but prints, evaluations of the current candidate or of one
    of the three tests, and fixer calls on the current candidate that name the
    main code or one of the three tests; a repair replaces the candidate. *)
Fixpoint frozen (task : string) (tests : list string) (candidate : string)
    (t : list event) : Prop :=
  match t with
  | [] => True
  | EvPrint _ :: t => frozen task tests candidate t
  | EvExec src _ :: t =>
      (src = candidate ∨ src ∈ tests) ∧ frozen task tests candidate t
  | EvCodeFixer task' old_code failed_test _ r :: t =>
      task' = task ∧ old_code = candidate ∧
      (failed_test = "main code" ∨ failed_test ∈ tests) ∧
      match r with
      | Ok fixed_code => frozen task tests fixed_code t
      | Err _ => t = []
      end
  | _ :: _ => False
  end.

(** An event of an activation before it reaches the fixer: a print, or the
    evaluation of the candidate or of one of the tests. *)
Definition quiet (code : string) (tests : list string) (ev : event) : Prop :=
  match ev with
  | EvPrint _ => True
  | EvExec src _ => src = code ∨ src ∈ tests
  | _ => False
  end.

(** The four ways one activation of [_run_code_and_tests] can go: every
    evaluation returns; something raises an [Exception] and the fixer
    answers, after which the answer is validated; something raises an
    [Exception] and the fixer raises; an evaluation raises past the handler,
    [e'] being what leaves the activation: the exception itself when it is
    no [Exception], what [str(e)] raises when it is one.  [r fuel] is the run
    of the activation when [fuel] further activations are allowed: which way
    it goes does not depend on [fuel]. *)
Inductive activation (self : CodeGenerationPipeline) (task code : string)
    (test_result : TestCases) (r : nat → run unit) : Prop :=
| act_pass w' :
    (∀ fuel, r fuel = Run (Return tt) w' (full_pass code test_result)) →
    activation self task code test_result r
| act_repair pre failed_test error_message fixed_code w1 w2 :
    Forall (quiet code (test_sources test_result)) pre →
    failed_test = "main code" ∨ failed_test ∈ test_sources test_result →
    call_code_fixer (trained_code_fixer self)
      task code failed_test error_message w1 = (Ok fixed_code, w2) →
    (∀ fuel,
       r fuel =
         after (pre ++ [EvCodeFixer task code failed_test error_message
                          (Ok fixed_code);
                        EvPrint (nl +:+ "Fixed code:" +:+ nl +:+ fixed_code)])
           (_run_code_and_tests self fuel task fixed_code test_result w2)) →
    activation self task code test_result r
| act_fixer_raises pre failed_test error_message e w' :
    Forall (quiet code (test_sources test_result)) pre →
    failed_test = "main code" ∨ failed_test ∈ test_sources test_result →
    (∀ fuel,
       r fuel =
         Run (Raise e) w'
           (pre ++ [EvCodeFixer task code failed_test error_message
                      (Err e)])) →
    activation self task code test_result r
| act_abort pre src e e' w' :
    Forall (quiet code (test_sources test_result)) pre →
    src = code ∨ src ∈ test_sources test_result →
    is_Exception e = false ∧ e' = e
    ∨ is_Exception e = true ∧ str e = Err e' →
    (∀ fuel, r fuel = Run (Raise e') w' (pre ++ [EvExec src (Some e)])) →
    activation self task code test_result r.

(** The event on which a run stopped with the exception [e]: an evaluation
    that raised [e] past [except Exception], an evaluation that raised an
    [Exception] of which [str] raised [e], or a fixer call that raised
    [e]. *)
Definition fatal (e : exn) (ev : event) : Prop :=
  match ev with
  | EvExec _ (Some e') =>
      is_Exception e' = false ∧ e' = e
      ∨ is_Exception e' = true ∧ str e' = Err e
  | EvCodeFixer _ _ _ _ (Err e') => e' = e
  | _ => False
  end.

(** [after_repair] for the methods that read the frame. *)
Definition after_repair_in_frame `{!Frame} (fuel : nat) (task : string)
    (r : reply string) (w : World) : list event :=
  match r with
  | Ok fixed_code =>
      EvPrint (nl +:+ "Fixed code:" +:+ nl +:+ fixed_code)
      :: trace (InFrame._run_code_and_tests fuel task fixed_code w)
  | Err _ => []
  end.

(** An event of a validation: a print, an evaluation or a call of the fixer;
    no call of a synthesis stage. *)
Definition of_validation (ev : event) : Prop :=
  match ev with
  | EvPrint _ | EvExec _ _ | EvCodeFixer _ _ _ _ _ => True
  | _ => False
  end.

(** The frame holds the pipeline [self] and the tests [test_result]. *)
Definition holds `{!Frame} (self : CodeGenerationPipeline)
    (test_result : TestCases) (w : World) : Prop :=
  self_object w = self ∧ test_result_object w = test_result.

(** The computation [m] ends in a world where [I] holds when it starts in
    one. *)
Definition keeps {A} (I : World → Prop) (m : M A) : Prop :=
  ∀ w, I w → I (final (m w)).

(** Neither the evaluated text nor the fixer assigns to the objects of the
    frame. *)
Definition frame_untouched `{!Frame} : Prop :=
  (∀ src w,
     self_object (py_exec src w).2 = self_object w ∧
     test_result_object (py_exec src w).2 = test_result_object w) ∧
  (∀ fixer task old_code failed_test error_message w,
     let w' :=
       (call_code_fixer fixer task old_code failed_test error_message w).2 in
     self_object w' = self_object w ∧
     test_result_object w' = test_result_object w).

(** The variant of [generate] that section 4.2, step 2 of the spec speaks of:
    the calls of the code generator and of the unit test generator are
    exchanged.  The script does not contain it; it is compared with
    [generate] below. *)
Definition generate_swapped (self : CodeGenerationPipeline) (fuel : nat)
    (task : string) : M unit :=
  signature_result ←
    invoke_signature (trained_signature self)
      (signature_task task);
  test_result ←
    invoke_unit_test (trained_unit_test self)
      (test_task task) signature_result;
  code_result ←
    invoke_code_gen (trained_code_gen self)
      (code_task task) signature_result;
  _print_results signature_result code_result test_result;;
  _run_code_and_tests self fuel task code_result test_result.

(** The endpoint is stateless for the two synthesis stages: what the code
    generator and the unit test generator answer depends on the request
    alone, and answering leaves the world as it was. *)
Definition answers_by_request : Prop :=
  ∃ (code_answer : Module → string → string → reply string)
    (test_answer : Module → string → string → reply TestCases),
    (∀ m task sig w,
       call_code_gen m task sig w = (code_answer m task sig, w)) ∧
    (∀ m task sig w,
       call_unit_test m task sig w = (test_answer m task sig, w)).

End Vocabulary.

(** ** Concrete hosts *)

(** Any host with a frame added.  A world of [Framed.host H] is a world of
    [H] and the prediction that [test_result] names; the collaborators of [H]
    act on the first and leave the second alone.  The frame holds the
    pipeline [self]. *)
Module Framed.
Section Framed.
Context (H : Host).

Definition lift {A} (call : @World H → A * @World H)
    (w : @World H * TestCases) : A * (@World H * TestCases) :=
  let '(a, w') := call w.1 in (a, (w', w.2)).

Definition host : Host := {|
  World := @World H * TestCases;
  Module := @Module H;
  new_module := @new_module H;
  BootstrapFewShot_compile := λ student trainset,
    lift (@BootstrapFewShot_compile H student trainset);
  call_signature := λ m task, lift (@call_signature H m task);
  call_code_gen := λ m task sig, lift (@call_code_gen H m task sig);
  call_unit_test := λ m task sig, lift (@call_unit_test H m task sig);
  call_code_fixer := λ m task old_code failed_test error_message,
    lift (@call_code_fixer H m task old_code failed_test error_message);
  py_exec := λ src, lift (@py_exec H src)
|}.

Definition pipeline (self : @CodeGenerationPipeline H)
    : @CodeGenerationPipeline host :=
  @MkPipeline host (examples self) (trained_signature self)
    (trained_code_gen self) (trained_unit_test self)
    (trained_code_fixer self).

Definition frame (self : @CodeGenerationPipeline H) : @Frame host := {|
  self_object := λ _, pipeline self;
  test_result_object := λ w : @World host, w.2;
  bind_test_result := λ test_result (w : @World host), (w.1, test_result);
  test_result_bound := λ _ _, eq_refl;
  self_unbound := λ _ _, eq_refl
|}.

End Framed.
End Framed.

(** A host that plays one scenario: the task is the Fibonacci function, the
    first draft of the code generator is a parameter, and the fixer always
    answers with a correct definition.  The world is the definition of [fib]
    the evaluator holds. *)
Module Demo.

Inductive dspy_module : Type :=
| Fresh (cls : module_class)
| Bootstrapped (student : dspy_module) (trainset : list Example).

Definition fib_signature : string := "def fib(n: int) -> int:".
Definition fib_draft : string := "def fib(n): return n".
Definition fib_fixed : string :=
  "def fib(n): return n if n < 2 else fib(n - 1) + fib(n - 2)".
Definition fib_broken : string := "def fib(n) return n".
Definition fib_tests : TestCases :=
  MkTests "assert fib(1) == 1" "assert fib(2) == 1" "assert fib(0) == 0".

Definition NameError : exn :=
  Exn "NameError" true "name 'fib' is not defined".
Definition AssertionError : exn := Exn "AssertionError" true "".
Definition SyntaxError : exn := Exn "SyntaxError" true "invalid syntax".

Definition evaluator (src : string) (w : option string)
    : option exn * option string :=
  if String.eqb src fib_draft || String.eqb src fib_fixed then (None, Some src)
  else if String.eqb src (test_1 fib_tests)
          || String.eqb src (test_2 fib_tests)
          || String.eqb src (edge_case_test_1 fib_tests) then
    match w with
    | None => (Some NameError, w)
    | Some def =>
        if String.eqb src (test_2 fib_tests) && String.eqb def fib_draft
        then (Some AssertionError, w)
        else (None, w)
    end
  else (Some SyntaxError, w).

Definition host (first_draft : string) : Host := {|
  World := option string;
  Module := dspy_module;
  new_module := Fresh;
  BootstrapFewShot_compile := λ student trainset w,
    (Ok (Bootstrapped student trainset), w);
  call_signature := λ _ _ w, (Ok fib_signature, w);
  call_code_gen := λ _ _ _ w, (Ok first_draft, w);
  call_unit_test := λ _ _ _ w, (Ok fib_tests, w);
  call_code_fixer := λ _ _ _ _ _ w, (Ok fib_fixed, w);
  py_exec := evaluator
|}.

Definition pipeline (first_draft : string)
    : @CodeGenerationPipeline (host first_draft) :=
  @MkPipeline (host first_draft) example_bank
    (Fresh CodeSignatureGenerator) (Fresh CodeGenerator)
    (Fresh UnitTestGenerator) (Fresh CodeFixer).

End Demo.

(** A host whose evaluator leaves the interpreter on one text: evaluating
    [exit_text] raises [SystemExit], which does not derive from [Exception];
    every other text evaluates without raising. *)
Module Exiting.

Definition SystemExit : exn := Exn "SystemExit" false "2".

Definition exit_text : string := "import sys; sys.exit(2)".

Definition evaluator (src : string) (w : unit) : option exn * unit :=
  if String.eqb src exit_text then (Some SystemExit, w) else (None, w).

Definition host : Host := {|
  World := unit;
  Module := unit;
  new_module := λ _, tt;
  BootstrapFewShot_compile := λ student _ w, (Ok student, w);
  call_signature := λ _ _ w, (Ok "def f():", w);
  call_code_gen := λ _ _ _ w, (Ok "pass", w);
  call_unit_test := λ _ _ _ w,
    (Ok (MkTests "assert True" "assert True" "assert True"), w);
  call_code_fixer := λ _ _ _ _ _ w, (Ok "pass", w);
  py_exec := evaluator
|}.

Definition pipeline : @CodeGenerationPipeline host :=
  @MkPipeline host [] tt tt tt tt.

End Exiting.

(** A host whose evaluator raises a set number of times, or for ever, and
    whose fixer goes back and forth between two texts.  The world [Some n]
    has [n] failures left; the world [None] never stops failing. *)
Module Stubborn.

Definition failure : exn := Exn "RuntimeError" true "still wrong".

Definition evaluator (src : string) (w : option nat)
    : option exn * option nat :=
  match w with
  | Some 0 => (None, Some 0)
  | Some (S n) => (Some failure, Some n)
  | None => (Some failure, None)
  end.

Definition host : Host := {|
  World := option nat;
  Module := unit;
  new_module := λ _, tt;
  BootstrapFewShot_compile := λ student _ w, (Ok student, w);
  call_signature := λ _ _ w, (Ok "", w);
  call_code_gen := λ _ _ _ w, (Ok "A", w);
  call_unit_test := λ _ _ _ w, (Ok (MkTests "t1" "t2" "t3"), w);
  call_code_fixer := λ _ _ old_code _ _ w,
    (Ok (if String.eqb old_code "A" then "B" else "A"), w);
  py_exec := evaluator
|}.

Definition pipeline : @CodeGenerationPipeline host :=
  @MkPipeline host [] tt tt tt tt.

Definition tests : TestCases := MkTests "t1" "t2" "t3".

(** The validation of the text [code] with [fuel] activations, from the
    world [w]. *)
Definition validation (fuel : nat) (code : string) (w : option nat)
    : @run host unit :=
  @_run_code_and_tests host pipeline fuel "task" code tests w.

(** The same validation on a stack with room for [frames] activations. *)
Definition interpreted (frames : nat) (code : string) (w : option nat)
    : @run host unit :=
  @CPython._run_code_and_tests host pipeline frames "task" code tests w.

End Stubborn.

(** A host in which the evaluated text reaches the frame.  The world is the
    object that [test_result] names.  Evaluating [rewrite_text] assigns the
    text [y = 2] to its three attributes when the object is [writable], and
    raises [AttributeError] when it is not; every other text evaluates
    without raising and leaves the object alone.  The code generator answers
    with [rewrite_text]. *)
Module Shared.

Definition rewrite_text : string :=
  "test_result.test_1 = test_result.test_2 = test_result.edge_case_test_1 = 'y = 2'".

Definition square_signature : string := "def square(n: int) -> int:".
Definition square_fixed : string := "def square(n): return n * n".

Definition generated : TestCases :=
  MkTests "assert square(1) == 1" "assert square(2) == 4"
    "assert square(0) == 0".

Definition rewritten : TestCases := MkTests "y = 2" "y = 2" "y = 2".

(** The frame before line 78 has run. *)
Definition unbound : TestCases := MkTests "" "" "".

Definition AttributeError : exn :=
  Exn "AttributeError" true "can't set attribute".

Definition evaluator (writable : bool) (src : string) (w : TestCases)
    : option exn * TestCases :=
  if String.eqb src rewrite_text then
    if writable then (None, rewritten) else (Some AttributeError, w)
  else (None, w).

Definition host (writable : bool) : Host := {|
  World := TestCases;
  Module := unit;
  new_module := λ _, tt;
  BootstrapFewShot_compile := λ student _ w, (Ok student, w);
  call_signature := λ _ _ w, (Ok square_signature, w);
  call_code_gen := λ _ _ _ w, (Ok rewrite_text, w);
  call_unit_test := λ _ _ _ w, (Ok generated, w);
  call_code_fixer := λ _ _ _ _ _ w, (Ok square_fixed, w);
  py_exec := evaluator writable
|}.

Definition pipeline (writable : bool) : @CodeGenerationPipeline (host writable) :=
  @MkPipeline (host writable) [] tt tt tt tt.

Definition frame (writable : bool) : @Frame (host writable) := {|
  self_object := λ _, pipeline writable;
  test_result_object := λ w : @World (host writable), w;
  bind_test_result := λ test_result _, test_result;
  test_result_bound := λ _ _, eq_refl;
  self_unbound := λ _ _, eq_refl
|}.

End Shared.

(** A host whose endpoint keeps state: the world counts the requests it has
    served, and the code generator answers with a draft that does not parse
    when that count is odd. *)
Module Moody.

Definition draft_even : string := "def f(): return 0".
Definition draft_odd : string := "def f() return 0".

Definition SyntaxError : exn := Exn "SyntaxError" true "invalid syntax".

Definition evaluator (src : string) (w : nat) : option exn * nat :=
  if String.eqb src draft_odd then (Some SyntaxError, w) else (None, w).

Definition host : Host := {|
  World := nat;
  Module := unit;
  new_module := λ _, tt;
  BootstrapFewShot_compile := λ student _ w, (Ok student, w);
  call_signature := λ _ _ w, (Ok "def f():", S w);
  call_code_gen := λ _ _ _ w,
    (Ok (if Nat.even w then draft_even else draft_odd), S w);
  call_unit_test := λ _ _ _ w,
    (Ok (MkTests "assert f() == 0" "assert f() < 1" "assert f() is not None"),
     S w);
  call_code_fixer := λ _ _ _ _ _ w, (Ok draft_even, S w);
  py_exec := evaluator
|}.

Definition pipeline : @CodeGenerationPipeline host :=
  @MkPipeline host [] tt tt tt tt.

End Moody.

(** ** Vocabulary of the further properties *)

Section Invariants.
Context `{Host}.

(** How many texts were evaluated in a trace. *)
Fixpoint evaluations (t : list event) : nat :=
  match t with
  | [] => 0
  | EvExec _ _ :: t => S (evaluations t)
  | _ :: t => evaluations t
  end.

(** An event that is a call of the teleprompter. *)
Definition is_compile (ev : event) : Prop :=
  match ev with
  | EvCompile _ _ _ => True
  | _ => False
  end.

(** The events of one activation up to the evaluation that raised [e]: the
    trace, the text that raised, what the fixer is told was the failed test,
    and the headline of the report, given what [str(e)] returns.  Either the
    candidate raised, or the candidate and the tests [passed] returned and
    the next test raised. *)
Inductive attempt (code : string) (test_result : TestCases)
    : list event → string → string → (string → string) → exn → Prop :=
| attempt_code e :
    attempt code test_result
      [EvPrint (nl +:+ "Running the code..."); EvExec code (Some e)]
      code "main code" (λ said, "Code failed with error: " +:+ said) e
| attempt_test passed name t remaining e :
    named_tests test_result = passed ++ (name, t) :: remaining →
    attempt code test_result
      ([EvPrint (nl +:+ "Running the code..."); EvExec code None;
        EvPrint "Running the tests..."]
       ++ passes passed.*2 ++ [EvExec t (Some e)])
      t t (λ said, "Test " +:+ name +:+ " failed with error: " +:+ said) e.

(** What a validation may do next: evaluate the candidate, or evaluate the
    test of the given index in [named_tests]. *)
Inductive stage : Type :=
| AtCode
| AtTest (index : nat).

(** The text a stage evaluates, what [_fix_code] is told was the failed test
    when that text raises, and the headline then printed. *)
Definition stage_source (candidate : string) (tests : list (string * string))
    (s : stage) : option (string * string * (string → string)) :=
  match s with
  | AtCode =>
      Some (candidate, "main code", λ said, "Code failed with error: " +:+ said)
  | AtTest index =>
      match tests !! index with
      | Some (test_name, test_code) =>
          Some (test_code, test_code,
                λ said, "Test " +:+ test_name +:+ " failed with error: "
                        +:+ said)
      | None => None
      end
  end.

Definition next_stage (s : stage) : stage :=
  match s with
  | AtCode => AtTest 0
  | AtTest index => AtTest (S index)
  end.

(** What has to follow an evaluation that raised [e], at a stage whose
    failed test is [label] and whose headline is [headline]; [validated] says
    what has to follow the print of an answer of the fixer. *)
Definition routed_from (validated : string → list event → Prop)
    (task candidate label : string) (headline : string → string) (e : exn)
    (t : list event) : Prop :=
  if is_Exception e then
    match str e with
    | Err _ => t = []
    | Ok said =>
        match t with
        | EvPrint line1 :: EvPrint line2
          :: EvCodeFixer task' old_code failed_test error_message r :: t =>
            line1 = headline said ∧
            line2 = "Re-generating the code with the execution feedback..." ∧
            task' = task ∧ old_code = candidate ∧
            failed_test = label ∧ error_message = said ∧
            match r with
            | Ok fixed_code =>
                match t with
                | EvPrint line3 :: t =>
                    line3 = nl +:+ "Fixed code:" +:+ nl +:+ fixed_code ∧
                    validated fixed_code t
                | _ => False
                end
            | Err _ => t = []
            end
        | _ => False
        end
    end
  else t = [].

(** Every failure is routed.  A text is evaluated only at its stage: the
    candidate first, then the tests in their order.  An evaluation that raises
    an [Exception] whose message [said] can be taken is followed by exactly
    the headline of its stage with [said], the line that announces the
    repair, one call of the fixer with the task, the current candidate, the
    failed test of the stage and [said], and, when the fixer answers, the
    print of the answer; the answer then is the candidate, not yet evaluated.
    An evaluation that raises anything else, or an [Exception] whose [str]
    raises, and a fixer call that raises, end the trace.  The fixer is called
    at no other place. *)
Fixpoint routed (task : string) (tests : list (string * string))
    (candidate : string) (s : stage) (t : list event) : Prop :=
  match t with
  | [] => True
  | EvPrint _ :: t => routed task tests candidate s t
  | EvExec src raised :: t =>
      match stage_source candidate tests s with
      | None => False
      | Some (expected, label, headline) =>
          src = expected ∧
          match raised with
          | None => routed task tests candidate (next_stage s) t
          | Some e =>
              routed_from
                (λ fixed_code t, routed task tests fixed_code AtCode t)
                task candidate label headline e t
          end
      end
  | _ :: _ => False
  end.

(** Tests wait for the candidate: as long as the current candidate has not
    been evaluated without raising ([clean] is [false]), the only text that
    is evaluated is the candidate itself.  A repair makes its answer the
    candidate, not yet evaluated. *)
Fixpoint candidate_first (candidate : string) (clean : bool)
    (t : list event) : Prop :=
  match t with
  | [] => True
  | EvPrint _ :: t => candidate_first candidate clean t
  | EvExec src raised :: t =>
      if clean then candidate_first candidate true t
      else src = candidate ∧
           candidate_first candidate
             (match raised with None => true | Some _ => false end) t
  | EvCodeFixer _ _ _ _ (Ok fixed_code) :: t =>
      candidate_first fixed_code false t
  | EvCodeFixer _ _ _ _ (Err _) :: t => t = []
  | _ :: _ => False
  end.

(** The outcome [o] of a run is explained by its trace [t]: an evaluation
    that raises past [except Exception] and a fixer call that raises are the
    last event, and the run raises that exception; an evaluation that raises
    an [Exception] of which [str] raises is the last event, and the run
    raises what [str] raised; a trace without such an event belongs to a run
    that does not raise. *)
Fixpoint explains (o : result unit) (t : list event) : Prop :=
  match t with
  | [] => match o with Raise _ => False | _ => True end
  | EvExec _ (Some e) :: t =>
      if is_Exception e then
        match str e with
        | Ok _ => explains o t
        | Err e' => t = [] ∧ o = Raise e'
        end
      else t = [] ∧ o = Raise e
  | EvCodeFixer _ _ _ _ (Err e) :: t => t = [] ∧ o = Raise e
  | _ :: t => explains o t
  end.

End Invariants.

(** A host whose teleprompter fails on the code generator, and whose other
    collaborators answer with fixed texts. *)
Module Faulty.

Definition priming_error : exn :=
  Exn "ValueError" true "no examples could be bootstrapped".

Definition host : Host := {|
  World := unit;
  Module := module_class;
  new_module := λ cls, cls;
  BootstrapFewShot_compile := λ student _ w,
    (if decide (student = CodeGenerator) then Err priming_error
     else Ok student, w);
  call_signature := λ _ _ w, (Ok "sig", w);
  call_code_gen := λ _ _ _ w, (Ok "code", w);
  call_unit_test := λ _ _ _ w, (Ok (MkTests "t1" "t2" "t3"), w);
  call_code_fixer := λ _ _ _ _ _ w, (Ok "code", w);
  py_exec := λ _ w, (None, w)
|}.

End Faulty.

(** ** How the embedded script runs *)

Section Runs.
Context `{Host}.
Implicit Types (self : CodeGenerationPipeline) (w : World) (tr : TestCases).
Implicit Types (evs : list event) (e : exn) (task code name t : string).

Lemma after_after {A} evs1 evs2 (r : run A) :
  after evs1 (after evs2 r) = after (evs1 ++ evs2) r.
Proof. unfold after; simpl. by rewrite (assoc_L (++)). Qed.

Lemma bind_print {B} line (k : M B) w :
  (print line;; k) w = after [EvPrint line] (k w).
Proof. reflexivity. Qed.

Lemma bind_exec_returns {B} src (k : option exn → M B) w w' :
  py_exec src w = (None, w') →
  (try_except (exec src) ≫= k) w = after [EvExec src None] (k None w').
Proof.
  intros Hexec. unfold mbind, M_bind, try_except, exec.
  by rewrite Hexec.
Qed.

Lemma bind_exec_caught {B} src (k : option exn → M B) w w' e :
  py_exec src w = (Some e, w') → is_Exception e = true →
  (try_except (exec src) ≫= k) w =
    after [EvExec src (Some e)] (k (Some e) w').
Proof.
  intros Hexec Hcls. unfold mbind, M_bind, try_except, exec.
  rewrite Hexec; simpl. by rewrite Hcls.
Qed.

Lemma bind_exec_uncaught {B} src (k : option exn → M B) w w' e :
  py_exec src w = (Some e, w') → is_Exception e = false →
  (try_except (exec src) ≫= k) w = Run (Raise e) w' [EvExec src (Some e)].
Proof.
  intros Hexec Hcls. unfold mbind, M_bind, try_except, exec.
  rewrite Hexec; simpl. by rewrite Hcls.
Qed.

Lemma after_nil {A} (r : run A) : after [] r = r.
Proof. by destruct r. Qed.

Lemma bind_str_returns {B} e said (k : string → M B) w :
  str e = Ok said → (lift_reply (str e) ≫= k) w = k said w.
Proof.
  intros ->. unfold mbind, M_bind, lift_reply; simpl. apply after_nil.
Qed.

Lemma bind_str_raises {B} e e' (k : string → M B) w :
  str e = Err e' → (lift_reply (str e) ≫= k) w = Run (Raise e') w [].
Proof. by intros ->. Qed.

Lemma bind_fix_code {B} self task old_code failed_test error_message
    (k : string → M B) w :
  (_fix_code self task old_code failed_test error_message ≫= k) w =
    let '(r, w') :=
      call_code_fixer (trained_code_fixer self)
        task old_code failed_test error_message w in
    match r with
    | Ok fixed_code =>
        after [EvCodeFixer task old_code failed_test error_message r]
          (k fixed_code w')
    | Err e =>
        Run (Raise e) w'
          [EvCodeFixer task old_code failed_test error_message r]
    end.
Proof.
  unfold mbind, M_bind, _fix_code, ask.
  by destruct (call_code_fixer _ _ _ _ _ _) as [[fixed_code|e] w'].
Qed.

Lemma bind_assoc {A B C} (m : M A) (f : A → M B) (g : B → M C) w :
  ((m ≫= f) ≫= g) w = (m ≫= λ a, f a ≫= g) w.
Proof.
  unfold mbind, M_bind, after.
  destruct (m w) as [[a|e|] w' t]; simpl; try done.
  destruct (f a w') as [[b|e|] w'' t']; simpl; try done.
  by rewrite (assoc_L (++)).
Qed.

Lemma after_trace {A} evs (r : run A) : trace (after evs r) = evs ++ trace r.
Proof. reflexivity. Qed.

Lemma repair_and_retry_run self fuel task code failed_test error_message
    tr w :
  repair_and_retry self fuel task code failed_test error_message tr w =
    let '(r, w') :=
      call_code_fixer (trained_code_fixer self)
        task code failed_test error_message w in
    match r with
    | Ok fixed_code =>
        after [EvCodeFixer task code failed_test error_message r;
               EvPrint (nl +:+ "Fixed code:" +:+ nl +:+ fixed_code)]
          (_run_code_and_tests self fuel task fixed_code tr w')
    | Err e =>
        Run (Raise e) w' [EvCodeFixer task code failed_test error_message r]
    end.
Proof.
  unfold repair_and_retry. rewrite bind_fix_code.
  destruct (call_code_fixer _ _ _ _ _ _) as [[fixed_code|e] w']; [|done].
  by rewrite bind_print, after_after.
Qed.

Lemma repair_and_retry_trace self fuel task code failed_test error_message
    tr w :
  trace (repair_and_retry self fuel task code failed_test error_message tr w)
  = let '(r, w') :=
      call_code_fixer (trained_code_fixer self)
        task code failed_test error_message w in
    EvCodeFixer task code failed_test error_message r
    :: after_repair self fuel task tr r w'.
Proof.
  rewrite repair_and_retry_run.
  by destruct (call_code_fixer _ _ _ _ _ _) as [[fixed_code|e] w'].
Qed.

(** *** The loop over the tests *)

Lemma loop_handler_returns (retry : string → M unit) (k : M unit)
    self task code failed_test error_message w :
  ((fixed_code ← _fix_code self task code failed_test error_message;
    print (nl +:+ "Fixed code:" +:+ nl +:+ fixed_code);;
    retry fixed_code;;
    mret true)
   ≫= λ returned : bool, if returned then mret tt else k) w
  = (fixed_code ← _fix_code self task code failed_test error_message;
     print (nl +:+ "Fixed code:" +:+ nl +:+ fixed_code);;
     retry fixed_code) w.
Proof.
  unfold mbind, M_bind, _fix_code, ask, print, mret, M_ret, after.
  destruct (call_code_fixer _ _ _ _ _ _) as [[fixed_code|e] w']; simpl;
    [|done].
  destruct (retry fixed_code w') as [[[]|e|] w'' t]; simpl;
    by rewrite ?(right_id_L [] (++)).
Qed.

Lemma loop_all_pass (retry : string → M unit) self task code
    (tests : list (string * string)) w w' :
  run_all tests.*2 w = Some w' →
  for_each_test retry self task code tests w =
    Run (Return false) w' (passes tests.*2).
Proof.
  revert w. induction tests as [|[name t] rest IH]; intros w Hall;
    simpl in Hall.
  - by simplify_eq.
  - destruct (py_exec t w) as [[e|] w1] eqn:Hexec; [done|].
    cbn [for_each_test]. rewrite (bind_exec_returns _ _ _ _ Hexec).
    by rewrite (IH _ Hall).
Qed.

Lemma loop_first_failure (retry : string → M unit) self task code
    (passed remaining : list (string * string)) name t w w2 w3 e said :
  run_all passed.*2 w = Some w2 →
  py_exec t w2 = (Some e, w3) →
  is_Exception e = true →
  str e = Ok said →
  for_each_test retry self task code (passed ++ (name, t) :: remaining) w =
    after (passes passed.*2 ++ EvExec t (Some e)
           :: failure_report
                ("Test " +:+ name +:+ " failed with error: " +:+ said))
      ((fixed_code ← _fix_code self task code t said;
        print (nl +:+ "Fixed code:" +:+ nl +:+ fixed_code);;
        retry fixed_code;;
        mret true) w3).
Proof.
  revert w. induction passed as [|[name' t'] passed IH];
    intros w Hall Hexec Hcls Hstr; simpl in Hall.
  - simplify_eq. cbn [for_each_test app].
    rewrite (bind_exec_caught _ _ _ _ _ Hexec Hcls).
    rewrite (bind_str_returns _ _ _ _ Hstr), !bind_print.
    by rewrite (bind_str_returns _ _ _ _ Hstr), !after_after.
  - destruct (py_exec t' w) as [[e'|] w1] eqn:Hexec'; [done|].
    cbn [for_each_test app]. rewrite (bind_exec_returns _ _ _ _ Hexec').
    by rewrite (IH _ Hall Hexec Hcls Hstr), after_after.
Qed.

Lemma loop_unprintable (retry : string → M unit) self task code
    (passed remaining : list (string * string)) name t w w2 w3 e e' :
  run_all passed.*2 w = Some w2 →
  py_exec t w2 = (Some e, w3) →
  is_Exception e = true →
  str e = Err e' →
  for_each_test retry self task code (passed ++ (name, t) :: remaining) w =
    Run (Raise e') w3 (passes passed.*2 ++ [EvExec t (Some e)]).
Proof.
  revert w. induction passed as [|[name' t'] passed IH];
    intros w Hall Hexec Hcls Hstr; simpl in Hall.
  - simplify_eq. cbn [for_each_test app].
    rewrite (bind_exec_caught _ _ _ _ _ Hexec Hcls).
    by rewrite (bind_str_raises _ _ _ _ Hstr).
  - destruct (py_exec t' w) as [[e0|] w1] eqn:Hexec'; [done|].
    cbn [for_each_test app]. rewrite (bind_exec_returns _ _ _ _ Hexec').
    by rewrite (IH _ Hall Hexec Hcls Hstr).
Qed.

Lemma loop_uncaught (retry : string → M unit) self task code
    (passed remaining : list (string * string)) name t w w2 w3 e :
  run_all passed.*2 w = Some w2 →
  py_exec t w2 = (Some e, w3) →
  is_Exception e = false →
  for_each_test retry self task code (passed ++ (name, t) :: remaining) w =
    Run (Raise e) w3 (passes passed.*2 ++ [EvExec t (Some e)]).
Proof.
  revert w. induction passed as [|[name' t'] passed IH];
    intros w Hall Hexec Hcls; simpl in Hall.
  - simplify_eq. cbn [for_each_test app].
    by rewrite (bind_exec_uncaught _ _ _ _ _ Hexec Hcls).
  - destruct (py_exec t' w) as [[e'|] w1] eqn:Hexec'; [done|].
    cbn [for_each_test app]. rewrite (bind_exec_returns _ _ _ _ Hexec').
    by rewrite (IH _ Hall Hexec Hcls).
Qed.

Lemma bind_after {A B} (m m' : M A) (f : A → M B) evs w w' :
  m w = after evs (m' w') →
  (m ≫= f) w = after evs ((m' ≫= f) w').
Proof.
  intros Hm. unfold mbind, M_bind. rewrite Hm. unfold after; simpl.
  destruct (outcome (m' w')); simpl; by rewrite ?(assoc_L (++)).
Qed.

(** *** One activation of [_run_code_and_tests] *)

Lemma bind_of_run {A B} (m : M A) (f : A → M B) w (r : run A) :
  m w = r →
  (m ≫= f) w =
    match outcome r with
    | Return a => after (trace r) (f a (final r))
    | Raise e => Run (Raise e) (final r) (trace r)
    | Diverge => Run Diverge (final r) (trace r)
    end.
Proof. by intros <-. Qed.

Lemma named_tests_sources tr : (named_tests tr).*2 = test_sources tr.
Proof. reflexivity. Qed.

Lemma validation_passes self fuel task code tr w w1 w2 :
  py_exec code w = (None, w1) →
  run_all (test_sources tr) w1 = Some w2 →
  _run_code_and_tests self (S fuel) task code tr w =
    Run (Return tt) w2 (full_pass code tr).
Proof.
  intros Hcode Htests. cbn [_run_code_and_tests].
  rewrite bind_print, (bind_exec_returns _ _ _ _ Hcode), bind_print.
  rewrite <- named_tests_sources in Htests.
  by rewrite (bind_of_run _ _ _ _ (loop_all_pass _ _ _ _ _ _ _ Htests)).
Qed.

Lemma validation_code_fails self fuel task code tr w w1 e said :
  py_exec code w = (Some e, w1) →
  is_Exception e = true →
  str e = Ok said →
  _run_code_and_tests self (S fuel) task code tr w =
    after (EvPrint (nl +:+ "Running the code...") :: EvExec code (Some e)
           :: failure_report ("Code failed with error: " +:+ said))
      (repair_and_retry self fuel task code "main code" said tr w1).
Proof.
  intros Hcode Hcls Hstr. cbn [_run_code_and_tests].
  rewrite bind_print, (bind_exec_caught _ _ _ _ _ Hcode Hcls).
  rewrite (bind_str_returns _ _ _ _ Hstr), !bind_print.
  by rewrite (bind_str_returns _ _ _ _ Hstr), !after_after.
Qed.

Lemma validation_code_unprintable self fuel task code tr w w1 e e' :
  py_exec code w = (Some e, w1) →
  is_Exception e = true →
  str e = Err e' →
  _run_code_and_tests self (S fuel) task code tr w =
    Run (Raise e') w1
      [EvPrint (nl +:+ "Running the code..."); EvExec code (Some e)].
Proof.
  intros Hcode Hcls Hstr. cbn [_run_code_and_tests].
  rewrite bind_print, (bind_exec_caught _ _ _ _ _ Hcode Hcls).
  by rewrite (bind_str_raises _ _ _ _ Hstr).
Qed.

Lemma validation_code_aborts self fuel task code tr w w1 e :
  py_exec code w = (Some e, w1) →
  is_Exception e = false →
  _run_code_and_tests self (S fuel) task code tr w =
    Run (Raise e) w1
      [EvPrint (nl +:+ "Running the code..."); EvExec code (Some e)].
Proof.
  intros Hcode Hcls. cbn [_run_code_and_tests].
  by rewrite bind_print, (bind_exec_uncaught _ _ _ _ _ Hcode Hcls).
Qed.

Lemma validation_test_fails self fuel task code tr
    (passed remaining : list (string * string)) name t w w1 w2 w3 e said :
  named_tests tr = passed ++ (name, t) :: remaining →
  py_exec code w = (None, w1) →
  run_all passed.*2 w1 = Some w2 →
  py_exec t w2 = (Some e, w3) →
  is_Exception e = true →
  str e = Ok said →
  _run_code_and_tests self (S fuel) task code tr w =
    after ([EvPrint (nl +:+ "Running the code..."); EvExec code None;
            EvPrint "Running the tests..."]
           ++ passes passed.*2
           ++ EvExec t (Some e)
              :: failure_report
                   ("Test " +:+ name +:+ " failed with error: " +:+ said))
      (repair_and_retry self fuel task code t said tr w3).
Proof.
  intros Hsplit Hcode Hpassed Htest Hcls Hstr. cbn [_run_code_and_tests].
  rewrite bind_print, (bind_exec_returns _ _ _ _ Hcode), bind_print.
  rewrite Hsplit.
  rewrite (bind_after _ _ _ _ _ _
             (loop_first_failure _ _ _ _ _ _ _ _ _ _ _ _ _
                Hpassed Htest Hcls Hstr)).
  rewrite loop_handler_returns.
  by rewrite !after_after.
Qed.

Lemma validation_test_unprintable self fuel task code tr
    (passed remaining : list (string * string)) name t w w1 w2 w3 e e' :
  named_tests tr = passed ++ (name, t) :: remaining →
  py_exec code w = (None, w1) →
  run_all passed.*2 w1 = Some w2 →
  py_exec t w2 = (Some e, w3) →
  is_Exception e = true →
  str e = Err e' →
  _run_code_and_tests self (S fuel) task code tr w =
    Run (Raise e') w3
      ([EvPrint (nl +:+ "Running the code..."); EvExec code None;
        EvPrint "Running the tests..."]
       ++ passes passed.*2 ++ [EvExec t (Some e)]).
Proof.
  intros Hsplit Hcode Hpassed Htest Hcls Hstr. cbn [_run_code_and_tests].
  rewrite bind_print, (bind_exec_returns _ _ _ _ Hcode), bind_print.
  rewrite Hsplit.
  by rewrite (bind_of_run _ _ _ _
                (loop_unprintable _ _ _ _ _ _ _ _ _ _ _ _ _
                   Hpassed Htest Hcls Hstr)).
Qed.

Lemma validation_test_aborts self fuel task code tr
    (passed remaining : list (string * string)) name t w w1 w2 w3 e :
  named_tests tr = passed ++ (name, t) :: remaining →
  py_exec code w = (None, w1) →
  run_all passed.*2 w1 = Some w2 →
  py_exec t w2 = (Some e, w3) →
  is_Exception e = false →
  _run_code_and_tests self (S fuel) task code tr w =
    Run (Raise e) w3
      ([EvPrint (nl +:+ "Running the code..."); EvExec code None;
        EvPrint "Running the tests..."]
       ++ passes passed.*2 ++ [EvExec t (Some e)]).
Proof.
  intros Hsplit Hcode Hpassed Htest Hcls. cbn [_run_code_and_tests].
  rewrite bind_print, (bind_exec_returns _ _ _ _ Hcode), bind_print.
  rewrite Hsplit.
  by rewrite (bind_of_run _ _ _ _
                (loop_uncaught _ _ _ _ _ _ _ _ _ _ _ _ Hpassed Htest Hcls)).
Qed.

(** *** The shape of an activation *)

Lemma first_raise (tests : list (string * string)) w :
  (∃ w', run_all tests.*2 w = Some w')
  ∨ (∃ passed name t remaining w2 w3 e,
       tests = passed ++ (name, t) :: remaining ∧
       run_all passed.*2 w = Some w2 ∧
       py_exec t w2 = (Some e, w3)).
Proof.
  revert w. induction tests as [|[name t] rest IH]; intros w.
  - left. by exists w.
  - simpl. destruct (py_exec t w) as [[e|] w1] eqn:Hexec.
    + right. by exists [], name, t, rest, w, w1, e.
    + destruct (IH w1) as [Hall|(passed&n&t'&rem&w2&w3&e&->&Hall&Hexec')].
      * by left.
      * right. exists ((name, t) :: passed), n, t', rem, w2, w3, e.
        simpl. by rewrite Hexec.
Qed.

Lemma quiet_passes code (tests srcs : list string) :
  srcs ⊆ tests → Forall (quiet code tests) (passes srcs).
Proof.
  intros Hsub. apply Forall_fmap, Forall_forall. intros src Hsrc; simpl.
  right. by apply Hsub.
Qed.

Lemma activation_view self task code tr w :
  activation self task code tr
    (λ fuel, _run_code_and_tests self (S fuel) task code tr w).
Proof.
  destruct (py_exec code w) as [[e|] w1] eqn:Hcode.
  - destruct (is_Exception e) eqn:Hcls.
    + destruct (str e) as [said|e'] eqn:Hstr.
      * destruct (call_code_fixer (trained_code_fixer self) task code
                    "main code" said w1)
          as [[fixed_code|e'] w2] eqn:Hfix.
        -- apply (act_repair _ _ _ _ _
                    (EvPrint (nl +:+ "Running the code...")
                     :: EvExec code (Some e)
                     :: failure_report ("Code failed with error: " +:+ said))
                    "main code" said fixed_code w1 w2);
             [repeat constructor|by left|done|].
           intros fuel.
           rewrite (validation_code_fails _ _ _ _ _ _ _ _ _ Hcode Hcls Hstr).
           by rewrite repair_and_retry_run, Hfix, after_after.
        -- apply (act_fixer_raises _ _ _ _ _
                    (EvPrint (nl +:+ "Running the code...")
                     :: EvExec code (Some e)
                     :: failure_report ("Code failed with error: " +:+ said))
                    "main code" said e' w2);
             [repeat constructor|by left|].
           intros fuel.
           rewrite (validation_code_fails _ _ _ _ _ _ _ _ _ Hcode Hcls Hstr).
           by rewrite repair_and_retry_run, Hfix.
      * apply (act_abort _ _ _ _ _ [EvPrint (nl +:+ "Running the code...")]
                 code e e' w1);
          [repeat constructor|by left|by right|].
        intros fuel.
        by rewrite (validation_code_unprintable _ _ _ _ _ _ _ _ _
                      Hcode Hcls Hstr).
    + apply (act_abort _ _ _ _ _ [EvPrint (nl +:+ "Running the code...")]
               code e e w1);
        [repeat constructor|by left|by left|].
      intros fuel.
      by rewrite (validation_code_aborts _ _ _ _ _ _ _ _ Hcode Hcls).
  - destruct (first_raise (named_tests tr) w1)
      as [[w2 Hall]|(passed&name&t&rem&w2&w3&e&Hsplit&Hall&Htest)].
    + apply (act_pass _ _ _ _ _ w2). intros fuel.
      by rewrite (validation_passes _ _ _ _ _ _ _ _ Hcode Hall).
    + assert (t ∈ test_sources tr) as Ht.
      { rewrite <- named_tests_sources, Hsplit, fmap_app, fmap_cons.
        apply elem_of_app; right. apply elem_of_cons. by left. }
      assert (Forall (quiet code (test_sources tr))
                ([EvPrint (nl +:+ "Running the code..."); EvExec code None;
                  EvPrint "Running the tests..."] ++ passes passed.*2))
        as Hpassed.
      { apply Forall_app; split; [repeat constructor|].
        apply quiet_passes.
        rewrite <- named_tests_sources, Hsplit, fmap_app.
        intros src Hsrc. apply elem_of_app. by left. }
      destruct (is_Exception e) eqn:Hcls.
      * destruct (str e) as [said|e'] eqn:Hstr.
        -- assert (Forall (quiet code (test_sources tr))
                     (([EvPrint (nl +:+ "Running the code...");
                        EvExec code None;
                        EvPrint "Running the tests..."] ++ passes passed.*2)
                      ++ EvExec t (Some e)
                         :: failure_report
                              ("Test " +:+ name +:+ " failed with error: "
                               +:+ said)))
             as Hquiet.
           { apply Forall_app; split; [done|].
             apply Forall_cons; split; [by right|repeat constructor]. }
           destruct (call_code_fixer (trained_code_fixer self) task code
                       t said w3)
             as [[fixed_code|e'] w4] eqn:Hfix.
           ++ apply (act_repair _ _ _ _ _ _ t said fixed_code w3 w4 Hquiet);
                [by right|done|].
              intros fuel.
              rewrite (validation_test_fails _ _ _ _ _ _ _ _ _ _ _ _ _ _ _
                         Hsplit Hcode Hall Htest Hcls Hstr).
              rewrite repair_and_retry_run, Hfix, after_after.
              by rewrite <- !(assoc_L (++)).
           ++ apply (act_fixer_raises _ _ _ _ _ _ t said e' w4 Hquiet);
                [by right|].
              intros fuel.
              rewrite (validation_test_fails _ _ _ _ _ _ _ _ _ _ _ _ _ _ _
                         Hsplit Hcode Hall Htest Hcls Hstr).
              rewrite repair_and_retry_run, Hfix.
              unfold after; simpl. by rewrite <- !(assoc_L (++)).
        -- apply (act_abort _ _ _ _ _ _ t e e' w3 Hpassed);
             [by right|by right|].
           intros fuel.
           rewrite (validation_test_unprintable _ _ _ _ _ _ _ _ _ _ _ _ _ _ _
                      Hsplit Hcode Hall Htest Hcls Hstr).
           by rewrite (assoc_L (++)).
      * apply (act_abort _ _ _ _ _ _ t e e w3 Hpassed);
          [by right|by left|].
        intros fuel.
        rewrite (validation_test_aborts _ _ _ _ _ _ _ _ _ _ _ _ _ _
                   Hsplit Hcode Hall Htest Hcls).
        by rewrite (assoc_L (++)).
Qed.

(** *** The synthesis stages *)

Lemma bind_ask {A B} (call : World → reply A * World) log (k : A → M B)
    w r w' :
  call w = (r, w') →
  (ask call log ≫= k) w =
    match r with
    | Ok a => after [log r] (k a w')
    | Err e => Run (Raise e) w' [log r]
    end.
Proof.
  intros Hcall. unfold mbind, M_bind, ask. rewrite Hcall. by destruct r.
Qed.

Lemma print_results_run {B} sig code tr (k : M B) w :
  (_print_results sig code tr;; k) w =
    after (generation_report sig code tr) (k w).
Proof.
  unfold _print_results.
  repeat (rewrite bind_assoc || rewrite bind_print).
  by rewrite !after_after.
Qed.

Lemma generate_run self fuel task sig code tr w0 w1 w2 w3 :
  call_signature (trained_signature self) (signature_task task) w0
    = (Ok sig, w1) →
  call_code_gen (trained_code_gen self) (code_task task) sig w1
    = (Ok code, w2) →
  call_unit_test (trained_unit_test self) (test_task task) sig w2
    = (Ok tr, w3) →
  generate self fuel task w0 =
    after ([EvSignature (signature_task task) (Ok sig);
            EvCodeGen (code_task task) sig (Ok code);
            EvUnitTest (test_task task) sig (Ok tr)]
           ++ generation_report sig code tr)
      (_run_code_and_tests self fuel task code tr w3).
Proof.
  intros Hsig Hgen Htests.
  unfold generate, invoke_signature, invoke_code_gen, invoke_unit_test.
  rewrite (bind_ask _ _ _ _ _ _ Hsig), (bind_ask _ _ _ _ _ _ Hgen),
    (bind_ask _ _ _ _ _ _ Htests), print_results_run.
  by rewrite !after_after.
Qed.

End Runs.

(** ** The repair loop *)

Section Loop.
Context `{Host}.
Implicit Types (self : CodeGenerationPipeline) (w : World) (tr : TestCases).
Implicit Types (evs pre : list event) (e : exn) (task code : string).

(** Case analysis on the activation that [_run_code_and_tests] starts with
    [S fuel]. *)
Ltac activation_cases self task code tr w fuel :=
  destruct (activation_view self task code tr w)
    as [w' Hr|pre ft em fixed_code w1 w2 Hpre Hft Hfix Hr
        |pre ft em e' w' Hpre Hft Hr|pre src e0 e' w' Hpre Hsrc Hcls Hr];
  rewrite (Hr fuel).

Lemma repairs_app evs1 evs2 :
  repairs (evs1 ++ evs2) = repairs evs1 + repairs evs2.
Proof.
  induction evs1 as [|[] evs1 IH]; simpl; by rewrite ?IH.
Qed.

Lemma repairs_quiet code tests pre :
  Forall (quiet code tests) pre → repairs pre = 0.
Proof.
  induction 1 as [|[] pre Hev _ IH]; simpl; done.
Qed.

Lemma candidate_after_quiet code0 tests code pre evs :
  Forall (quiet code0 tests) pre →
  candidate_after code (pre ++ evs) = candidate_after code evs.
Proof.
  induction 1 as [|[] pre Hev _ IH]; simpl; done.
Qed.

Lemma frozen_quiet task tests code pre evs :
  Forall (quiet code tests) pre →
  frozen task tests code evs →
  frozen task tests code (pre ++ evs).
Proof.
  induction 1 as [|[] pre Hev _ IH]; simpl; intros Hevs; try done; auto.
Qed.

Lemma quiet_full_pass code tr :
  Forall (quiet code (test_sources tr)) (full_pass code tr).
Proof.
  unfold full_pass, test_sources.
  repeat (apply Forall_cons; split;
            [simpl; rewrite ?elem_of_cons; auto|]).
  constructor.
Qed.

(** The signature and the tests are not touched by the loop. *)
Lemma frozen_validation self fuel task code tr w :
  frozen task (test_sources tr) code
    (trace (_run_code_and_tests self fuel task code tr w)).
Proof.
  revert code w. induction fuel as [|fuel IH]; intros code w; [done|].
  activation_cases self task code tr w fuel.
  - rewrite <- (right_id_L [] (++) (full_pass code tr)).
    apply frozen_quiet; [apply quiet_full_pass|done].
  - rewrite after_trace, <- (assoc_L (++)).
    apply frozen_quiet; [done|]. simpl. repeat split; try done; apply IH.
  - apply frozen_quiet; [done|]. simpl. by repeat split.
  - rewrite <- (right_id_L [] (++) (pre ++ _)).
    apply frozen_quiet; [|done].
    apply Forall_app; split; [done|].
    apply Forall_cons; split; [exact Hsrc|constructor].
Qed.

(** A run that returns ends with a pass in which nothing raises, made on
    the candidate the last repair produced. *)
Lemma success_ends_with_full_pass self fuel task code tr w :
  outcome (_run_code_and_tests self fuel task code tr w) = Return tt →
  ∃ pre,
    trace (_run_code_and_tests self fuel task code tr w) =
      pre ++ full_pass (candidate_after code pre) tr.
Proof.
  revert code w. induction fuel as [|fuel IH]; intros code w; [done|].
  activation_cases self task code tr w fuel; [|simpl..|done|done].
  - intros _. by exists [].
  - intros Hok. destruct (IH _ _ Hok) as [pre' Hsub]. rewrite Hsub.
    exists ((pre ++ [EvCodeFixer task code ft em (Ok fixed_code);
                     EvPrint (nl +:+ "Fixed code:" +:+ nl +:+ fixed_code)])
            ++ pre').
    by rewrite <- !(assoc_L (++)), (candidate_after_quiet _ _ _ _ _ Hpre).
Qed.

(** A run that raises stops on the event that raised. *)
Lemma raise_ends_with_fatal self fuel task code tr w e :
  outcome (_run_code_and_tests self fuel task code tr w) = Raise e →
  ∃ pre last,
    trace (_run_code_and_tests self fuel task code tr w) = pre ++ [last] ∧
    fatal e last.
Proof.
  revert code w. induction fuel as [|fuel IH]; intros code w; [done|].
  activation_cases self task code tr w fuel; [done|simpl..].
  - intros Hraise. destruct (IH _ _ Hraise) as (pre'&last&Hsub&Hlast).
    rewrite Hsub.
    eexists (_ ++ pre'), last. by rewrite (assoc_L (++)).
  - intros [= ->]. by eexists pre, _.
  - intros [= <-]. eexists pre, _. split; [done|]. simpl.
    destruct Hcls as [[Hcls ->]|[Hcls Hstr]]; [by left|by right].
Qed.

(** The model runs out of fuel only after as many repairs as it had fuel. *)
Lemma diverge_counts_repairs self fuel task code tr w :
  outcome (_run_code_and_tests self fuel task code tr w) = Diverge →
  repairs (trace (_run_code_and_tests self fuel task code tr w)) = fuel.
Proof.
  revert code w. induction fuel as [|fuel IH]; intros code w; [done|].
  activation_cases self task code tr w fuel; [done|simpl|done..].
  intros Hdiv. pose proof (IH _ _ Hdiv) as Hsub.
  rewrite !repairs_app, (repairs_quiet _ _ _ Hpre), Hsub. simpl. lia.
Qed.

(** Where a fixer call sits among the events that follow a prefix without
    fixer calls. *)
Lemma first_repair_split pre0 (x : event) rest0 pre
    task old_code failed_test error_message r post :
  repairs pre0 = 0 →
  pre0 ++ x :: rest0 =
    pre ++ EvCodeFixer task old_code failed_test error_message r :: post →
  (pre = pre0 ∧ x = EvCodeFixer task old_code failed_test error_message r
   ∧ post = rest0)
  ∨ (∃ mid, pre = pre0 ++ x :: mid ∧
            rest0 =
              mid ++ EvCodeFixer task old_code failed_test error_message r
              :: post).
Proof.
  revert pre. induction pre0 as [|a pre0 IH]; intros pre Hquiet Heq.
  - destruct pre as [|b pre]; simplify_eq/=; [by left|].
    right. by exists pre.
  - destruct pre as [|b pre]; [by simplify_eq/=|].
    injection Heq as -> Heq.
    assert (repairs pre0 = 0) as Hquiet' by by destruct b.
    destruct (IH _ Hquiet' Heq) as [(->&->&->)|(mid&->&->)]; [by left|].
    right. by exists mid.
Qed.

Lemma run_starts_with_exec self fuel task code tr w :
  ∃ raised rest,
    trace (_run_code_and_tests self (S fuel) task code tr w) =
      EvPrint (nl +:+ "Running the code...") :: EvExec code raised :: rest.
Proof.
  cbn [_run_code_and_tests]. rewrite bind_print.
  destruct (py_exec code w) as [[e|] w1] eqn:Hcode.
  - destruct (is_Exception e) eqn:Hcls.
    + rewrite (bind_exec_caught _ _ _ _ _ Hcode Hcls). by eexists _, _.
    + rewrite (bind_exec_uncaught _ _ _ _ _ Hcode Hcls). by eexists _, _.
  - rewrite (bind_exec_returns _ _ _ _ Hcode). by eexists _, _.
Qed.

(** Fuel is not an iteration cap of the script: a run that ends is the same
    with more of it. *)
Lemma more_fuel self fuel extra task code tr w :
  outcome (_run_code_and_tests self fuel task code tr w) ≠ Diverge →
  _run_code_and_tests self (fuel + extra) task code tr w =
    _run_code_and_tests self fuel task code tr w.
Proof.
  revert code w. induction fuel as [|fuel IH]; intros code w; [done|].
  change (S fuel + extra) with (S (fuel + extra)).
  destruct (activation_view self task code tr w)
    as [w' Hr|pre ft em fixed_code w1 w2 Hpre Hft Hfix Hr
        |pre ft em e' w' Hpre Hft Hr|pre src e0 e' w' Hpre Hsrc Hcls Hr];
    rewrite (Hr fuel), (Hr (fuel + extra)); try done.
  simpl. intros Hends. by rewrite (IH _ _ Hends).
Qed.

End Loop.


(** ** The validation pass *)

Section FrameValidation.
Context `{Frame}.
Implicit Types (w : World) (e : exn) (task code name t said : string).

Lemma bind_read {A B} (attribute : World → A) (k : A → M B) w :
  (InFrame.read attribute ≫= k) w = k (attribute w) w.
Proof. unfold mbind, M_bind, InFrame.read; simpl. apply after_nil. Qed.

(** [self.trained_code_fixer] is the fixer the frame holds when the call is
    made. *)
Lemma fix_code_in_frame {B} task old_code failed_test error_message
    (k : string → M B) w :
  (InFrame._fix_code task old_code failed_test error_message ≫= k) w =
    (_fix_code (self_object w) task old_code failed_test error_message ≫= k)
      w.
Proof. unfold InFrame._fix_code. by rewrite bind_assoc, bind_read. Qed.

Lemma frame_loop_first_failure (retry : string → M unit) task code
    (passed remaining : list (string * string)) name t w w2 w3 e said :
  run_all passed.*2 w = Some w2 →
  py_exec t w2 = (Some e, w3) →
  is_Exception e = true →
  str e = Ok said →
  InFrame.for_each_test retry task code (passed ++ (name, t) :: remaining) w =
    after (passes passed.*2 ++ EvExec t (Some e)
           :: failure_report
                ("Test " +:+ name +:+ " failed with error: " +:+ said))
      ((fixed_code ← _fix_code (self_object w3) task code t said;
        print (nl +:+ "Fixed code:" +:+ nl +:+ fixed_code);;
        retry fixed_code;;
        mret true) w3).
Proof.
  revert w. induction passed as [|[name' t'] passed IH];
    intros w Hall Hexec Hcls Hstr; simpl in Hall.
  - simplify_eq. cbn [InFrame.for_each_test app].
    rewrite (bind_exec_caught _ _ _ _ _ Hexec Hcls).
    rewrite (bind_str_returns _ _ _ _ Hstr), !bind_print.
    rewrite (bind_str_returns _ _ _ _ Hstr), fix_code_in_frame.
    by rewrite !after_after.
  - destruct (py_exec t' w) as [[e'|] w1] eqn:Hexec'; [done|].
    cbn [InFrame.for_each_test app].
    rewrite (bind_exec_returns _ _ _ _ Hexec').
    by rewrite (IH _ Hall Hexec Hcls Hstr), after_after.
Qed.

Lemma frame_loop_unprintable (retry : string → M unit) task code
    (passed remaining : list (string * string)) name t w w2 w3 e e' :
  run_all passed.*2 w = Some w2 →
  py_exec t w2 = (Some e, w3) →
  is_Exception e = true →
  str e = Err e' →
  InFrame.for_each_test retry task code (passed ++ (name, t) :: remaining) w =
    Run (Raise e') w3 (passes passed.*2 ++ [EvExec t (Some e)]).
Proof.
  revert w. induction passed as [|[name' t'] passed IH];
    intros w Hall Hexec Hcls Hstr; simpl in Hall.
  - simplify_eq. cbn [InFrame.for_each_test app].
    rewrite (bind_exec_caught _ _ _ _ _ Hexec Hcls).
    by rewrite (bind_str_raises _ _ _ _ Hstr).
  - destruct (py_exec t' w) as [[e0|] w1] eqn:Hexec'; [done|].
    cbn [InFrame.for_each_test app].
    rewrite (bind_exec_returns _ _ _ _ Hexec').
    by rewrite (IH _ Hall Hexec Hcls Hstr).
Qed.

Lemma frame_loop_uncaught (retry : string → M unit) task code
    (passed remaining : list (string * string)) name t w w2 w3 e :
  run_all passed.*2 w = Some w2 →
  py_exec t w2 = (Some e, w3) →
  is_Exception e = false →
  InFrame.for_each_test retry task code (passed ++ (name, t) :: remaining) w =
    Run (Raise e) w3 (passes passed.*2 ++ [EvExec t (Some e)]).
Proof.
  revert w. induction passed as [|[name' t'] passed IH];
    intros w Hall Hexec Hcls; simpl in Hall.
  - simplify_eq. cbn [InFrame.for_each_test app].
    by rewrite (bind_exec_uncaught _ _ _ _ _ Hexec Hcls).
  - destruct (py_exec t' w) as [[e'|] w1] eqn:Hexec'; [done|].
    cbn [InFrame.for_each_test app].
    rewrite (bind_exec_returns _ _ _ _ Hexec').
    by rewrite (IH _ Hall Hexec Hcls).
Qed.

(** C1.  The tests run in the order test_1, test_2, edge_case_test_1 after the
    candidate; they are the three attributes of [test_result] as the
    evaluation of the candidate has left them.  When the candidate and the
    first [k] tests evaluate without raising and the next test [t] raises
    [e], the activation evaluates nothing further.  If [e] is an [Exception]
    and [str(e)] returns [said], the activation reports the failure and
    calls the fixer with the task, the candidate, the text of [t] and
    [said]; what follows is the reply of the fixer and, if it answered, the
    validation of its answer.  If [e] is an [Exception] and [str(e)] raises,
    the run ends there with what [str(e)] raised; if [e] is no [Exception],
    the run ends there with [e].  In both cases the fixer is not called. *)
Theorem caught_test_failure_goes_to_repair fuel task code
    k name t e w0 w1 w2 w3 :
  py_exec code w0 = (None, w1) →
  named_tests (test_result_object w1) !! k = Some (name, t) →
  run_all (take k (test_sources (test_result_object w1))) w1 = Some w2 →
  py_exec t w2 = (Some e, w3) →
  let evaluated :=
    [EvPrint (nl +:+ "Running the code...");
     EvExec code None;
     EvPrint "Running the tests..."]
    ++ passes (take k (test_sources (test_result_object w1)))
    ++ [EvExec t (Some e)] in
  if is_Exception e then
    match str e with
    | Ok said =>
        let '(r, w4) :=
          call_code_fixer (trained_code_fixer (self_object w3))
            task code t said w3 in
        trace (InFrame._run_code_and_tests (S fuel) task code w0) =
          evaluated
          ++ [EvPrint ("Test " +:+ name +:+ " failed with error: " +:+ said);
              EvPrint "Re-generating the code with the execution feedback...";
              EvCodeFixer task code t said r]
          ++ after_repair_in_frame fuel task r w4
    | Err e' =>
        InFrame._run_code_and_tests (S fuel) task code w0 =
          Run (Raise e') w3 evaluated
    end
  else
    InFrame._run_code_and_tests (S fuel) task code w0 =
      Run (Raise e) w3 evaluated.
Proof.
  intros Hcode Hk Hpassed Htest evaluated. subst evaluated.
  pose proof (take_drop_middle _ _ _ Hk) as Hsplit.
  rewrite <- named_tests_sources, <- fmap_take in Hpassed.
  rewrite <- named_tests_sources, <- fmap_take.
  cbn [InFrame._run_code_and_tests].
  rewrite bind_print, (bind_exec_returns _ _ _ _ Hcode), bind_print,
    bind_read.
  set (retry := λ fixed_code,
         InFrame._run_code_and_tests fuel task fixed_code).
  destruct (is_Exception e) eqn:Hcls; [destruct (str e) as [said|e'] eqn:Hstr|].
  - pose proof (frame_loop_first_failure retry task code _
                  (drop (S k) (named_tests (test_result_object w1)))
                  name t _ _ _ _ _ Hpassed Htest Hcls Hstr) as Hloop.
    rewrite Hsplit in Hloop.
    rewrite (bind_after _ _ _ _ _ _ Hloop).
    rewrite loop_handler_returns, bind_fix_code.
    destruct (call_code_fixer _ _ _ _ _ _) as [[fixed_code|e'] w4].
    + rewrite bind_print, !after_after, after_trace.
      cbn [after_repair_in_frame]. by rewrite <- !(assoc_L (++)).
    + cbn [after trace after_repair_in_frame].
      by rewrite <- !(assoc_L (++)).
  - pose proof (frame_loop_unprintable retry task code _
                  (drop (S k) (named_tests (test_result_object w1)))
                  name t _ _ _ _ _ Hpassed Htest Hcls Hstr) as Hloop.
    rewrite Hsplit in Hloop. by rewrite (bind_of_run _ _ _ _ Hloop).
  - pose proof (frame_loop_uncaught retry task code _
                  (drop (S k) (named_tests (test_result_object w1)))
                  name t _ _ _ _ Hpassed Htest Hcls) as Hloop.
    rewrite Hsplit in Hloop. by rewrite (bind_of_run _ _ _ _ Hloop).
Qed.

(** C3.  When evaluating the candidate raises [e], the activation evaluates
    no test.  If [e] is an [Exception] and [str(e)] returns [said], the
    activation reports the failure and calls the fixer with the task, the
    candidate, the text [main code] as failed test and [said]; what follows
    is the reply of the fixer and, if it answered, the validation of its
    answer.  If [e] is an [Exception] and [str(e)] raises, the run ends there
    with what [str(e)] raised; if [e] is no [Exception], the run ends there
    with [e].  In both cases the fixer is not called. *)
Theorem caught_code_failure_goes_to_repair fuel task code e w0 w1 :
  py_exec code w0 = (Some e, w1) →
  let evaluated :=
    [EvPrint (nl +:+ "Running the code..."); EvExec code (Some e)] in
  if is_Exception e then
    match str e with
    | Ok said =>
        let '(r, w2) :=
          call_code_fixer (trained_code_fixer (self_object w1))
            task code "main code" said w1 in
        trace (InFrame._run_code_and_tests (S fuel) task code w0) =
          evaluated
          ++ [EvPrint ("Code failed with error: " +:+ said);
              EvPrint "Re-generating the code with the execution feedback...";
              EvCodeFixer task code "main code" said r]
          ++ after_repair_in_frame fuel task r w2
    | Err e' =>
        InFrame._run_code_and_tests (S fuel) task code w0 =
          Run (Raise e') w1 evaluated
    end
  else
    InFrame._run_code_and_tests (S fuel) task code w0 =
      Run (Raise e) w1 evaluated.
Proof.
  intros Hcode evaluated. subst evaluated.
  cbn [InFrame._run_code_and_tests]. rewrite bind_print.
  destruct (is_Exception e) eqn:Hcls; [destruct (str e) as [said|e'] eqn:Hstr|].
  - rewrite (bind_exec_caught _ _ _ _ _ Hcode Hcls).
    rewrite (bind_str_returns _ _ _ _ Hstr), !bind_print.
    rewrite (bind_str_returns _ _ _ _ Hstr), fix_code_in_frame, bind_fix_code.
    destruct (call_code_fixer _ _ _ _ _ _) as [[fixed_code|e'] w2].
    + by rewrite bind_print, !after_after, after_trace.
    + done.
  - rewrite (bind_exec_caught _ _ _ _ _ Hcode Hcls).
    by rewrite (bind_str_raises _ _ _ _ Hstr).
  - by rewrite (bind_exec_uncaught _ _ _ _ _ Hcode Hcls).
Qed.

End FrameValidation.

(** The Fibonacci scenario: the draft passes test_1 and fails test_2. *)
Lemma caught_test_failure_goes_to_repair_witness :
  let frame :=
    Framed.frame (Demo.host Demo.fib_draft) (Demo.pipeline Demo.fib_draft) in
  trace (InFrame._run_code_and_tests (H0 := frame) 2 "fib" Demo.fib_draft
           (None, Demo.fib_tests)) =
    [EvPrint (nl +:+ "Running the code...");
     EvExec Demo.fib_draft None;
     EvPrint "Running the tests...";
     EvExec "assert fib(1) == 1" None;
     EvExec "assert fib(2) == 1" (Some Demo.AssertionError);
     EvPrint "Test test_2 failed with error: ";
     EvPrint "Re-generating the code with the execution feedback...";
     EvCodeFixer "fib" Demo.fib_draft "assert fib(2) == 1" ""
       (Ok Demo.fib_fixed);
     EvPrint (nl +:+ "Fixed code:" +:+ nl +:+ Demo.fib_fixed)]
    ++ full_pass Demo.fib_fixed Demo.fib_tests.
Proof.
  exact (caught_test_failure_goes_to_repair
           (H0 := Framed.frame (Demo.host Demo.fib_draft)
                    (Demo.pipeline Demo.fib_draft))
           1 "fib" Demo.fib_draft 1 "test_2" "assert fib(2) == 1"
           Demo.AssertionError
           (None, Demo.fib_tests) (Some Demo.fib_draft, Demo.fib_tests)
           (Some Demo.fib_draft, Demo.fib_tests)
           (Some Demo.fib_draft, Demo.fib_tests)
           eq_refl eq_refl eq_refl eq_refl).
Defined.

(** A first test that leaves the interpreter: the run ends on it with
    [SystemExit], the other two tests are not evaluated, and the fixer is
    never called. *)
Lemma test_that_exits_is_not_repaired :
  let frame := Framed.frame Exiting.host Exiting.pipeline in
  let test_result :=
    MkTests Exiting.exit_text "assert True" "assert 1 + 1 == 2" in
  let validation :=
    InFrame._run_code_and_tests (H0 := frame) 5 "task" "pass"
      (tt, test_result) in
  py_exec (Host := Exiting.host) Exiting.exit_text tt
    = (Some Exiting.SystemExit, tt)
  ∧ outcome validation = Raise Exiting.SystemExit
  ∧ trace validation =
      [EvPrint (nl +:+ "Running the code...");
       EvExec "pass" None;
       EvPrint "Running the tests...";
       EvExec Exiting.exit_text (Some Exiting.SystemExit)]
  ∧ repairs (trace validation) = 0.
Proof. by vm_compute. Qed.

(** A draft that does not parse. *)
Lemma caught_code_failure_goes_to_repair_witness :
  let frame :=
    Framed.frame (Demo.host Demo.fib_broken)
      (Demo.pipeline Demo.fib_broken) in
  trace (InFrame._run_code_and_tests (H0 := frame) 2 "fib" Demo.fib_broken
           (None, Demo.fib_tests)) =
    [EvPrint (nl +:+ "Running the code...");
     EvExec Demo.fib_broken (Some Demo.SyntaxError);
     EvPrint "Code failed with error: invalid syntax";
     EvPrint "Re-generating the code with the execution feedback...";
     EvCodeFixer "fib" Demo.fib_broken "main code" "invalid syntax"
       (Ok Demo.fib_fixed);
     EvPrint (nl +:+ "Fixed code:" +:+ nl +:+ Demo.fib_fixed)]
    ++ full_pass Demo.fib_fixed Demo.fib_tests.
Proof.
  exact (caught_code_failure_goes_to_repair
           (H0 := Framed.frame (Demo.host Demo.fib_broken)
                    (Demo.pipeline Demo.fib_broken))
           1 "fib" Demo.fib_broken Demo.SyntaxError
           (None, Demo.fib_tests) (None, Demo.fib_tests) eq_refl).
Defined.

(** A candidate that leaves the interpreter: the run ends on it with
    [SystemExit]; no test is evaluated and the fixer is never called. *)
Lemma code_that_exits_is_not_repaired :
  let frame := Framed.frame Exiting.host Exiting.pipeline in
  let test_result := MkTests "assert True" "assert True" "assert True" in
  let validation :=
    InFrame._run_code_and_tests (H0 := frame) 5 "task" Exiting.exit_text
      (tt, test_result) in
  py_exec (Host := Exiting.host) Exiting.exit_text tt
    = (Some Exiting.SystemExit, tt)
  ∧ outcome validation = Raise Exiting.SystemExit
  ∧ trace validation =
      [EvPrint (nl +:+ "Running the code...");
       EvExec Exiting.exit_text (Some Exiting.SystemExit)]
  ∧ repairs (trace validation) = 0.
Proof. by vm_compute. Qed.

Section Validation.
Context `{Host}.
Implicit Types (self : CodeGenerationPipeline) (w : World) (tr : TestCases).
Implicit Types (e : exn) (task code name t : string).


End Validation.


(** ** Repair *)

Section Repair.
Context `{Host}.
Implicit Types (self : CodeGenerationPipeline) (w : World) (tr : TestCases).
Implicit Types (pre post : list event) (task code : string).


End Repair.


(** ** The generated artifacts *)

Section SharedObjects.
Context `{Frame}.
Implicit Types (self : CodeGenerationPipeline) (w : World) (tr : TestCases).
Implicit Types (task code sig : string) (I : World → Prop).

(** *** A validation calls no synthesis stage *)

Lemma bind_events {A B} (P : event → Prop) (m : M A) (k : A → M B) w :
  Forall P (trace (m w)) →
  (∀ a w', Forall P (trace (k a w'))) →
  Forall P (trace ((m ≫= k) w)).
Proof.
  intros Hm Hk. unfold mbind, M_bind.
  destruct (m w) as [[a|e|] w' t]; simpl in *; try done.
  apply Forall_app; split; [done|apply Hk].
Qed.

Lemma exec_events src w :
  Forall of_validation (trace (try_except (exec src) w)).
Proof.
  unfold try_except, exec.
  destruct (py_exec src w) as [[e|] w']; simpl;
    [destruct (is_Exception e)|]; by repeat constructor.
Qed.

Lemma str_events e w : Forall of_validation (trace (lift_reply (str e) w)).
Proof. constructor. Qed.

Lemma fix_code_events task code failed_test error_message w :
  Forall of_validation
    (trace (InFrame._fix_code task code failed_test error_message w)).
Proof.
  unfold InFrame._fix_code. rewrite bind_read. unfold ask.
  destruct (call_code_fixer _ _ _ _ _ _) as [r w']. by repeat constructor.
Qed.

Ltac events_step :=
  apply bind_events;
  [first [apply exec_events|apply str_events|apply fix_code_events
         |by repeat constructor]
  |intros ? ?].

Lemma loop_events (retry : string → M unit) task code
    (tests : list (string * string)) w :
  (∀ fixed_code w', Forall of_validation (trace (retry fixed_code w'))) →
  Forall of_validation (trace (InFrame.for_each_test retry task code tests w)).
Proof.
  intros Hretry. revert w.
  induction tests as [|[name t] rest IH]; intros w; [constructor|].
  cbn [InFrame.for_each_test]. apply bind_events; [apply exec_events|].
  intros [e|] w'; [|apply IH].
  do 6 events_step. apply bind_events; [apply Hretry|constructor].
Qed.

Lemma validation_events fuel task code w :
  Forall of_validation (trace (InFrame._run_code_and_tests fuel task code w)).
Proof.
  revert code w. induction fuel as [|fuel IH]; intros code w; [constructor|].
  cbn [InFrame._run_code_and_tests].
  events_step. apply bind_events; [apply exec_events|].
  intros [e|] w1.
  - do 6 events_step. apply IH.
  - events_step. rewrite bind_read.
    apply bind_events; [by apply loop_events|].
    intros [] w2; by repeat constructor.
Qed.

(** *** Objects that nothing assigns to can be passed by value *)

Lemma keeps_bind {A B} I (m : M A) (k : A → M B) :
  keeps I m → (∀ a, keeps I (k a)) → keeps I (m ≫= k).
Proof.
  intros Hm Hk w HI. unfold mbind, M_bind. specialize (Hm w HI).
  destruct (m w) as [[a|e|] w' t]; simpl in *; try done.
  by apply Hk.
Qed.

Lemma bind_by_value {A B} I (m m' : M A) (k k' : A → M B) w :
  I w → m w = m' w → keeps I m' →
  (∀ a w', I w' → k a w' = k' a w') →
  (m ≫= k) w = (m' ≫= k') w.
Proof.
  intros HI Hm Hkeeps Hk. unfold mbind, M_bind. rewrite Hm.
  specialize (Hkeeps w HI).
  destruct (m' w) as [[a|e|] w' t]; simpl in *; try done.
  by rewrite Hk.
Qed.

Section ByValue.
Variables (self : CodeGenerationPipeline) (tr : TestCases).
Hypothesis Huntouched : frame_untouched.

Lemma keeps_print line : keeps (holds self tr) (print line).
Proof. by intros w. Qed.

Lemma keeps_str e : keeps (holds self tr) (lift_reply (str e)).
Proof. by intros w. Qed.

Lemma keeps_ret {A} (a : A) : keeps (holds self tr) (mret a).
Proof. by intros w. Qed.

Lemma keeps_exec src : keeps (holds self tr) (try_except (exec src)).
Proof.
  intros w [Hself Htests].
  destruct (proj1 Huntouched src w) as [Hself' Htests'].
  unfold try_except, exec.
  destruct (py_exec src w) as [[e|] w']; simpl in *;
    [destruct (is_Exception e)|]; simpl; split; congruence.
Qed.

Lemma keeps_fix_code task code failed_test error_message :
  keeps (holds self tr) (_fix_code self task code failed_test error_message).
Proof.
  intros w [Hself Htests].
  destruct (proj2 Huntouched (trained_code_fixer self) task code failed_test
              error_message w) as [Hself' Htests'].
  unfold _fix_code, ask.
  destruct (call_code_fixer _ _ _ _ _ _) as [[fixed_code|e] w']; simpl in *;
    split; congruence.
Qed.

Ltac keeps_step :=
  apply keeps_bind;
  [first [apply keeps_print|apply keeps_str|apply keeps_exec
         |apply keeps_fix_code]
  |intros ?].

Lemma keeps_loop (retry : string → M unit) task code
    (tests : list (string * string)) :
  (∀ fixed_code, keeps (holds self tr) (retry fixed_code)) →
  keeps (holds self tr) (for_each_test retry self task code tests).
Proof.
  intros Hretry. induction tests as [|[name t] rest IH]; [apply keeps_ret|].
  cbn [for_each_test]. apply keeps_bind; [apply keeps_exec|].
  intros [e|]; [|apply IH].
  do 6 keeps_step. apply keeps_bind; [apply Hretry|intros; apply keeps_ret].
Qed.

(** The validation leaves the objects of the frame as they are. *)
Lemma keeps_validation fuel task code :
  keeps (holds self tr) (_run_code_and_tests self fuel task code tr).
Proof.
  revert code. induction fuel as [|fuel IH]; intros code; [by intros w|].
  cbn [_run_code_and_tests].
  keeps_step. apply keeps_bind; [apply keeps_exec|].
  intros [e|].
  - do 6 keeps_step. apply IH.
  - keeps_step. apply keeps_bind; [by apply keeps_loop|].
    intros []; [apply keeps_ret|apply keeps_print].
Qed.

Lemma fix_code_by_value task code failed_test error_message w :
  holds self tr w →
  InFrame._fix_code task code failed_test error_message w =
    _fix_code self task code failed_test error_message w.
Proof.
  intros [Hself _]. unfold InFrame._fix_code. rewrite bind_read.
  by rewrite Hself.
Qed.

Ltac by_value_step :=
  eapply (bind_by_value (holds self tr));
  [eassumption
  |first [reflexivity|by apply fix_code_by_value]
  |first [apply keeps_print|apply keeps_str|apply keeps_exec
         |apply keeps_fix_code]
  |intros ? ? ?].

Lemma loop_by_value (retry retry' : string → M unit) task code
    (tests : list (string * string)) w :
  holds self tr w →
  (∀ fixed_code, keeps (holds self tr) (retry' fixed_code)) →
  (∀ fixed_code w',
     holds self tr w' → retry fixed_code w' = retry' fixed_code w') →
  InFrame.for_each_test retry task code tests w =
    for_each_test retry' self task code tests w.
Proof.
  intros Hw Hkeeps Hretry. revert w Hw.
  induction tests as [|[name t] rest IH]; intros w Hw; [done|].
  cbn [InFrame.for_each_test for_each_test].
  eapply (bind_by_value (holds self tr));
    [done|done|apply keeps_exec|].
  intros [e|] w1 Hw1; [|by apply IH].
  do 6 by_value_step.
  eapply (bind_by_value (holds self tr)); [eassumption| |apply Hkeeps|done].
  by apply Hretry.
Qed.

(** When nothing assigns to the objects of the frame, the validation is the
    one of the embedding that passes them by value. *)
Lemma validation_by_value fuel task code w :
  holds self tr w →
  InFrame._run_code_and_tests fuel task code w =
    _run_code_and_tests self fuel task code tr w.
Proof.
  revert code w. induction fuel as [|fuel IH]; intros code w Hw; [done|].
  cbn [InFrame._run_code_and_tests _run_code_and_tests].
  by_value_step.
  eapply (bind_by_value (holds self tr));
    [eassumption|done|apply keeps_exec|].
  intros [e|] w1 Hw1.
  - do 6 by_value_step. by apply IH.
  - by_value_step. rewrite bind_read.
    match goal with Hw2 : holds self tr _ |- _ =>
      rewrite (proj2 Hw2) end.
    eapply (bind_by_value (holds self tr)); [eassumption| | |done].
    + apply loop_by_value; [done|intros; apply keeps_validation|].
      intros fixed_code w3 Hw3. by apply IH.
    + apply keeps_loop. intros. apply keeps_validation.
Qed.

End ByValue.


End SharedObjects.

(** A frame whose tests cannot be assigned to is untouched. *)
Lemma read_only_frame_is_untouched :
  @frame_untouched (Shared.host false) (Shared.frame false).
Proof.
  split; [intros src w|by intros]. split; [done|].
  simpl. unfold Shared.evaluator. by destruct (String.eqb src _).
Qed.



Section Artifacts.
Context `{Host}.
Implicit Types (self : CodeGenerationPipeline) (w : World) (tr : TestCases).
Implicit Types (task code sig : string).


End Artifacts.



(** ** The loop and the recursion limit *)

Section Limit.
Context `{Host}.
Implicit Types (self : CodeGenerationPipeline) (w : World) (tr : TestCases).
Implicit Types (task code : string).

Lemma at_limit_bind {A B} (m m' : M A) (k k' : A → M B) w :
  m' w = at_limit (m w) →
  (∀ a w', k' a w' = at_limit (k a w')) →
  (m' ≫= k') w = at_limit ((m ≫= k) w).
Proof.
  intros Hm Hk. unfold mbind, M_bind. rewrite Hm. unfold at_limit.
  destruct (m w) as [[a|e|] w' t]; simpl; try done.
  rewrite Hk. unfold at_limit, after.
  by destruct (k a w') as [[b|e|] w'' t'].
Qed.

Lemma at_limit_exec src w :
  try_except (exec src) w = at_limit (try_except (exec src) w).
Proof.
  unfold try_except, exec, at_limit.
  destruct (py_exec src w) as [[e|] w']; simpl; [|done].
  by destruct (is_Exception e).
Qed.

Lemma at_limit_str e w :
  lift_reply (str e) w = at_limit (lift_reply (str e) w).
Proof. unfold lift_reply, at_limit. by destruct (str e). Qed.

Lemma at_limit_fix_code self task code failed_test error_message w :
  _fix_code self task code failed_test error_message w =
    at_limit (_fix_code self task code failed_test error_message w).
Proof.
  unfold _fix_code, ask, at_limit.
  by destruct (call_code_fixer _ _ _ _ _ _) as [[fixed_code|e] w'].
Qed.

(** One step of a handler or of the loop: a primitive that cannot run out of
    stack, then the rest. *)
Ltac limit_step :=
  apply at_limit_bind;
  [first [reflexivity|apply at_limit_exec|apply at_limit_str
         |apply at_limit_fix_code]
  |intros ? ?].

Lemma at_limit_loop (retry retry' : string → M unit) self task code
    (tests : list (string * string)) w :
  (∀ fixed_code w', retry' fixed_code w' = at_limit (retry fixed_code w')) →
  for_each_test retry' self task code tests w =
    at_limit (for_each_test retry self task code tests w).
Proof.
  intros Hretry. revert w.
  induction tests as [|[name t] rest IH]; intros w; [done|].
  cbn [for_each_test]. apply at_limit_bind; [apply at_limit_exec|].
  intros [e|] w'; [|apply IH].
  do 6 limit_step.
  apply at_limit_bind; [apply Hretry|done].
Qed.

(** The interpreter runs the script as the fuel model does, and raises
    [RecursionError] where the model runs out of fuel. *)
Lemma limited_run self frames task code tr w :
  CPython._run_code_and_tests self frames task code tr w =
    at_limit (_run_code_and_tests self frames task code tr w).
Proof.
  revert code w. induction frames as [|frames IH]; intros code w; [done|].
  cbn [CPython._run_code_and_tests _run_code_and_tests].
  limit_step. apply at_limit_bind; [apply at_limit_exec|].
  intros [e|] w1.
  - do 6 limit_step. apply IH.
  - limit_step. apply at_limit_bind; [by apply at_limit_loop|].
    by intros [] w2.
Qed.

Lemma at_limit_trace {A} (r : run A) : trace (at_limit r) = trace r.
Proof. unfold at_limit. by destruct (outcome r). Qed.

Lemma at_limit_outcome {A} (r : run A) :
  outcome (at_limit r) =
    match outcome r with
    | Diverge => Raise RecursionError
    | o => o
    end.
Proof. unfold at_limit. by destruct (outcome r) eqn:Hout. Qed.

(** Each repair takes one activation. *)
Lemma repairs_at_most_fuel self fuel task code tr w :
  repairs (trace (_run_code_and_tests self fuel task code tr w)) ≤ fuel.
Proof.
  revert code w. induction fuel as [|fuel IH]; intros code w; [done|].
  destruct (activation_view self task code tr w)
    as [w' Hr|pre ft em fixed_code w1 w2 Hpre Hft Hfix Hr
        |pre ft em e' w' Hpre Hft Hr|pre src e0 e' w' Hpre Hsrc Hcls Hr];
    rewrite (Hr fuel); cbn [trace after].
  - rewrite (repairs_quiet _ _ _ (quiet_full_pass code tr)). lia.
  - rewrite !repairs_app, (repairs_quiet _ _ _ Hpre). simpl.
    specialize (IH fixed_code w2). lia.
  - rewrite !repairs_app, (repairs_quiet _ _ _ Hpre). simpl. lia.
  - rewrite !repairs_app, (repairs_quiet _ _ _ Hpre). simpl. lia.
Qed.

End Limit.

(** *** A fixer that goes back and forth *)

Lemma stubborn_activation fuel code w :
  Stubborn.validation (S fuel) code w =
    match w with
    | Some 0 =>
        Run (H := Stubborn.host) (Return tt) (Some 0)
          (full_pass code Stubborn.tests)
    | _ =>
        let fixed_code := if String.eqb code "A" then "B" else "A" in
        after [EvPrint (nl +:+ "Running the code...");
               EvExec code (Some Stubborn.failure);
               EvPrint "Code failed with error: still wrong";
               EvPrint "Re-generating the code with the execution feedback...";
               EvCodeFixer "task" code "main code" "still wrong"
                 (Ok fixed_code);
               EvPrint (nl +:+ "Fixed code:" +:+ nl +:+ fixed_code)]
          (Stubborn.validation fuel fixed_code (Nat.pred <$> w))
    end.
Proof.
  unfold Stubborn.validation. destruct w as [[|n]|].
  - by rewrite (@validation_passes Stubborn.host Stubborn.pipeline fuel
                  "task" code Stubborn.tests (Some 0) (Some 0) (Some 0)
                  eq_refl eq_refl).
  - rewrite (@validation_code_fails Stubborn.host Stubborn.pipeline fuel
               "task" code Stubborn.tests (Some (S n)) (Some n)
               Stubborn.failure "still wrong" eq_refl eq_refl eq_refl).
    by rewrite repair_and_retry_run.
  - rewrite (@validation_code_fails Stubborn.host Stubborn.pipeline fuel
               "task" code Stubborn.tests None None
               Stubborn.failure "still wrong" eq_refl eq_refl eq_refl).
    by rewrite repair_and_retry_run.
Qed.

Lemma stubborn_succeeds n fuel code :
  n < fuel →
  outcome (Stubborn.validation fuel code (Some n)) = Return tt ∧
  repairs (trace (Stubborn.validation fuel code (Some n))) = n.
Proof.
  revert fuel code. induction n as [|n IH]; intros [|fuel] code Hlt;
    try lia; rewrite stubborn_activation; [done|].
  destruct (IH fuel (if String.eqb code "A" then "B" else "A")) as [Hout Hrep];
    [lia|].
  split; [done|]. simpl. by rewrite Hrep.
Qed.

Lemma stubborn_diverges fuel :
  (outcome (Stubborn.validation fuel "A" None) = Diverge ∧
   repairs (trace (Stubborn.validation fuel "A" None)) = fuel ∧
   executions_of "A" (trace (Stubborn.validation fuel "A" None))
     = Nat.div2 (S fuel) ∧
   executions_of "B" (trace (Stubborn.validation fuel "A" None))
     = Nat.div2 fuel)
  ∧ (outcome (Stubborn.validation fuel "B" None) = Diverge ∧
     repairs (trace (Stubborn.validation fuel "B" None)) = fuel ∧
     executions_of "A" (trace (Stubborn.validation fuel "B" None))
       = Nat.div2 fuel ∧
     executions_of "B" (trace (Stubborn.validation fuel "B" None))
       = Nat.div2 (S fuel)).
Proof.
  induction fuel as [|fuel [(HA1&HA2&HA3&HA4) (HB1&HB2&HB3&HB4)]]; [done|].
  rewrite !stubborn_activation.
  cbn [String.eqb Ascii.eqb Bool.eqb fmap option_fmap option_map].
  cbn [after outcome trace app repairs executions_of String.eqb Ascii.eqb
         Bool.eqb Nat.add].
  rewrite HA1, HA2, HA3, HA4, HB1, HB2, HB3, HB4.
  repeat split; try done.
Qed.

Lemma stubborn_interpreted frames code w :
  Stubborn.interpreted frames code w =
    at_limit (Stubborn.validation frames code w).
Proof. apply (@limited_run Stubborn.host). Qed.

Lemma stubborn_never_fatal fuel code e :
  Forall (λ ev, ¬ fatal e ev) (trace (Stubborn.validation fuel code None)).
Proof.
  revert code. induction fuel as [|fuel IH]; intros code; [constructor|].
  rewrite stubborn_activation. cbn [after trace app].
  repeat (apply Forall_cons; split; [simpl; try tauto|]); [|apply IH].
  by intros [[[=] _]|[_ [=]]].
Qed.



(** ** Construction of the pipeline *)

Section Construction.
Context `{Host}.
Implicit Types (bank : list (gmap string string)) (w : World).

(** The training set [_compile_module] builds for a class whose declared
    input fields it is given. *)
Lemma init_run bank w :
  let trainset cls :=
    (λ x, with_inputs (dspy_Example x) (input_fields_of cls)) <$> bank in
  let compile cls :=
    BootstrapFewShot_compile (new_module cls) (trainset cls) in
  __init__ bank w =
    let '(r1, w1) := compile CodeSignatureGenerator w in
    match r1 with
    | Err e =>
        Run (Raise e) w1
          [EvCompile CodeSignatureGenerator
             (trainset CodeSignatureGenerator) r1]
    | Ok m1 =>
        let '(r2, w2) := compile CodeGenerator w1 in
        match r2 with
        | Err e =>
            Run (Raise e) w2
              [EvCompile CodeSignatureGenerator
                 (trainset CodeSignatureGenerator) r1;
               EvCompile CodeGenerator (trainset CodeGenerator) r2]
        | Ok m2 =>
            let '(r3, w3) := compile UnitTestGenerator w2 in
            Run (match r3 with
                 | Err e => Raise e
                 | Ok m3 =>
                     Return (MkPipeline bank m1 m2 m3 (new_module CodeFixer))
                 end)
              w3
              [EvCompile CodeSignatureGenerator
                 (trainset CodeSignatureGenerator) r1;
               EvCompile CodeGenerator (trainset CodeGenerator) r2;
               EvCompile UnitTestGenerator (trainset UnitTestGenerator) r3]
        end
    end.
Proof.
  cbn zeta. unfold __init__, _compile_module.
  destruct (BootstrapFewShot_compile _ _ w) as [[m1|e] w1] eqn:H1;
    rewrite (bind_ask _ _ _ _ _ _ H1); [|done].
  destruct (BootstrapFewShot_compile _ _ w1) as [[m2|e] w2] eqn:H2;
    rewrite (bind_ask _ _ _ _ _ _ H2); [|done].
  destruct (BootstrapFewShot_compile _ _ w2) as [[m3|e] w3] eqn:H3;
    by rewrite (bind_ask _ _ _ _ _ _ H3).
Qed.

Lemma init_never_compiles_the_fixer bank w cls trainset r :
  EvCompile cls trainset r ∈ trace (__init__ bank w) →
  cls ∈ [CodeSignatureGenerator; CodeGenerator; UnitTestGenerator] ∧
  trainset =
    (λ x, with_inputs (dspy_Example x) (input_fields_of cls)) <$> bank.
Proof.
  rewrite init_run.
  destruct (BootstrapFewShot_compile _ _ w) as [[m1|e] w1]; cycle 1.
  { cbn [trace]. rewrite !elem_of_cons, elem_of_nil.
    intros [[= -> -> ->]|[]]; (split; [|done]); auto. }
  destruct (BootstrapFewShot_compile _ _ w1) as [[m2|e] w2]; cycle 1.
  { cbn [trace]. rewrite !elem_of_cons, elem_of_nil.
    intros [[= -> -> ->]|[[= -> -> ->]|[]]]; (split; [|done]); auto. }
  destruct (BootstrapFewShot_compile _ _ w2) as [r3 w3].
  cbn [trace]. rewrite !elem_of_cons, elem_of_nil.
  intros [[= -> -> ->]|[[= -> -> ->]|[[= -> -> ->]|[]]]];
    (split; [|done]); auto.
Qed.

(** C6, as the code has it.  The teleprompter is called for the signature
    generator, the code generator and the unit test generator, in this
    order and for nothing else, each time with all the examples of the
    bank, marked with the declared input fields of the class.  The code
    fixer of the pipeline is a fresh instance of its class. *)
Theorem three_stages_are_primed bank w :
  let trainset cls :=
    (λ x, with_inputs (dspy_Example x) (input_fields_of cls)) <$> bank in
  let r := __init__ bank w in
  (∀ cls ts reply,
     EvCompile cls ts reply ∈ trace r →
     cls ∈ [CodeSignatureGenerator; CodeGenerator; UnitTestGenerator] ∧
     ts = trainset cls)
  ∧ (∀ self,
       outcome r = Return self →
       trace r =
         [EvCompile CodeSignatureGenerator (trainset CodeSignatureGenerator)
            (Ok (trained_signature self));
          EvCompile CodeGenerator (trainset CodeGenerator)
            (Ok (trained_code_gen self));
          EvCompile UnitTestGenerator (trainset UnitTestGenerator)
            (Ok (trained_unit_test self))]
       ∧ trained_code_fixer self = new_module CodeFixer
       ∧ examples self = bank).
Proof.
  cbn zeta. split; [intros cls ts reply; apply init_never_compiles_the_fixer|].
  intros self. rewrite init_run.
  destruct (BootstrapFewShot_compile _ _ w) as [[m1|e] w1]; [|done].
  destruct (BootstrapFewShot_compile _ _ w1) as [[m2|e] w2]; [|done].
  destruct (BootstrapFewShot_compile _ _ w2) as [[m3|e] w3]; [|done].
  by intros [= <-].
Qed.

End Construction.

(** C6 as the spec words it does not hold: on the example bank of the script
    no call of the teleprompter is made for the code fixer, and the pipeline
    holds the fresh instance. *)
Lemma code_fixer_is_not_primed :
  let r := __init__ (H := Demo.host Demo.fib_draft) example_bank None in
  (∃ self,
     outcome r = Return self ∧
     trained_code_fixer self = Demo.Fresh CodeFixer)
  ∧ ¬ (∀ cls, ∃ trainset reply,
         EvCompile cls trainset reply ∈ trace r).
Proof.
  cbn zeta. split; [by eexists|].
  intros Hall. destruct (Hall CodeFixer) as (trainset&reply&Hin).
  apply (init_never_compiles_the_fixer (H := Demo.host Demo.fib_draft))
    in Hin as [Hcls _].
  rewrite !elem_of_cons, elem_of_nil in Hcls.
  by destruct Hcls as [|[|[|]]].
Qed.

(** ** Start of the script *)

Section Startup.
Context `{Host}.
Implicit Types (w : World) (dotenv environ : gmap string string).

(** C9.  When the variable is in neither the process environment nor the
    [.env] file, so that [load_dotenv] leaves it unset, the script raises
    [TypeError] on line 9: the language model is not configured, the
    pipeline is not built, no collaborator is called and the world is
    untouched. *)
Theorem missing_credential_is_fatal dotenv environ argv fuel w :
  os_getenv (load_dotenv dotenv environ) "OPENAI_API_KEY" = None →
  script dotenv environ argv fuel w =
    Run (Raise (Exn "TypeError" true "str expected, not NoneType")) w [].
Proof.
  intros Hunset. unfold script, module_level. cbn zeta.
  by rewrite Hunset.
Qed.

(** With the variable set, the same lines store it back and configure the
    language model. *)
Lemma credential_present_configures dotenv environ key w :
  os_getenv (load_dotenv dotenv environ) "OPENAI_API_KEY" = Some key →
  module_level dotenv environ w =
    Run (Return (<["OPENAI_API_KEY" := key]> (load_dotenv dotenv environ))) w
      [EvConfigure "openai/gpt-4o" 1000].
Proof.
  intros Hset. unfold module_level. cbn zeta. by rewrite Hset.
Qed.

End Startup.

Lemma missing_credential_is_fatal_witness :
  script (H := Demo.host Demo.fib_draft) ∅ ∅ ["dspy_code_gen.py"] 1 None =
    Run (H := Demo.host Demo.fib_draft)
      (Raise (Exn "TypeError" true "str expected, not NoneType")) None [].
Proof.
  exact (missing_credential_is_fatal (H := Demo.host Demo.fib_draft)
           ∅ ∅ ["dspy_code_gen.py"] 1 None eq_refl).
Defined.

(** C10.  The task is the third element of the argument vector exactly when
    the vector has at least three elements and the second is [--task];
    otherwise it is the default task.  The result is never an exception; in
    particular [--task] as last argument selects the default task. *)
Theorem task_is_read_from_argv (argv : list string) :
  task_of_argv argv =
    Ok (match argv with
        | _ :: flag :: task :: _ =>
            if decide (flag = "--task") then task else default_task
        | _ => default_task
        end)
  ∧ ∀ prog, task_of_argv [prog; "--task"] = Ok default_task.
Proof.
  split; [|done].
  destruct argv as [|prog [|flag [|task rest]]]; try done.
  unfold task_of_argv. rewrite bool_decide_true by (simpl; lia). simpl.
  destruct (String.eqb_spec flag "--task"); by case_decide.
Qed.

(** ** Further properties of the validation *)

Section Activations.
Context `{Host}.
Implicit Types (self : CodeGenerationPipeline) (w : World) (tr : TestCases).
Implicit Types (pre rest : list event) (e : exn).
Implicit Types (task code src ft said : string) (headline : string → string).

(** One activation either passes or stops at a first evaluation that
    raises; what the run does then depends on the class of the exception
    and on what [str] makes of it. *)
Lemma activation_detail self task code tr w :
  (∃ w', ∀ fuel,
     _run_code_and_tests self (S fuel) task code tr w =
       Run (Return tt) w' (full_pass code tr))
  ∨ (∃ pre src ft headline e w1,
       attempt code tr pre src ft headline e ∧
       ∀ fuel,
         _run_code_and_tests self (S fuel) task code tr w =
           if is_Exception e then
             match str e with
             | Ok said =>
                 after (pre ++ failure_report (headline said))
                   (repair_and_retry self fuel task code ft said tr w1)
             | Err e' => Run (Raise e') w1 pre
             end
           else Run (Raise e) w1 pre).
Proof.
  destruct (py_exec code w) as [[e|] w1] eqn:Hcode.
  - right. eexists _, _, _, _, e, w1. split; [apply attempt_code|].
    intros fuel. destruct (is_Exception e) eqn:Hcls;
      [destruct (str e) as [said|e'] eqn:Hstr|].
    + by rewrite (validation_code_fails _ _ _ _ _ _ _ _ _ Hcode Hcls Hstr).
    + by rewrite (validation_code_unprintable _ _ _ _ _ _ _ _ _
                    Hcode Hcls Hstr).
    + by rewrite (validation_code_aborts _ _ _ _ _ _ _ _ Hcode Hcls).
  - destruct (first_raise (named_tests tr) w1)
      as [[w2 Hall]|(passed&name&t&rem&w2&w3&e&Hsplit&Hall&Htest)].
    + left. exists w2. intros fuel.
      by rewrite (validation_passes _ _ _ _ _ _ _ _ Hcode Hall).
    + right. eexists _, _, _, _, e, w3.
      split; [by apply (attempt_test _ _ passed name t rem e)|].
      intros fuel. destruct (is_Exception e) eqn:Hcls;
        [destruct (str e) as [said|e'] eqn:Hstr|].
      * rewrite (validation_test_fails _ _ _ _ _ _ _ _ _ _ _ _ _ _ _
                   Hsplit Hcode Hall Htest Hcls Hstr).
        by rewrite <- !(assoc_L (++)).
      * by rewrite (validation_test_unprintable _ _ _ _ _ _ _ _ _ _ _ _ _ _ _
                      Hsplit Hcode Hall Htest Hcls Hstr).
      * by rewrite (validation_test_aborts _ _ _ _ _ _ _ _ _ _ _ _ _ _
                      Hsplit Hcode Hall Htest Hcls).
Qed.

(** Induction over the activations of a validation. *)
Lemma validation_ind self task tr (P : nat → string → run unit → Prop) :
  (∀ code w, P 0 code (Run Diverge w [])) →
  (∀ fuel code w, P (S fuel) code (Run (Return tt) w (full_pass code tr))) →
  (∀ fuel code pre src ft headline e w,
     attempt code tr pre src ft headline e →
     is_Exception e = false →
     P (S fuel) code (Run (Raise e) w pre)) →
  (∀ fuel code pre src ft headline e e' w,
     attempt code tr pre src ft headline e →
     is_Exception e = true →
     str e = Err e' →
     P (S fuel) code (Run (Raise e') w pre)) →
  (∀ fuel code pre src ft headline e said e' w,
     attempt code tr pre src ft headline e →
     is_Exception e = true →
     str e = Ok said →
     P (S fuel) code
       (Run (Raise e') w
          (pre ++ failure_report (headline said)
           ++ [EvCodeFixer task code ft said (Err e')]))) →
  (∀ fuel code pre src ft headline e said fixed_code sub,
     attempt code tr pre src ft headline e →
     is_Exception e = true →
     str e = Ok said →
     P fuel fixed_code sub →
     P (S fuel) code
       (after (pre ++ failure_report (headline said)
               ++ [EvCodeFixer task code ft said (Ok fixed_code);
                   EvPrint (nl +:+ "Fixed code:" +:+ nl +:+ fixed_code)])
          sub)) →
  ∀ fuel code w, P fuel code (_run_code_and_tests self fuel task code tr w).
Proof.
  intros Hzero Hpass Habort Hunprintable Hfixer Hrepair.
  induction fuel as [|fuel IH]; intros code w; [apply Hzero|].
  destruct (activation_detail self task code tr w)
    as [[w' Hr]|(pre&src&ft&headline&e&w1&Hattempt&Hr)];
    rewrite (Hr fuel); [apply Hpass|].
  destruct (is_Exception e) eqn:Hcls; [|by eapply Habort].
  destruct (str e) as [said|e'] eqn:Hstr; [|by eapply Hunprintable].
  rewrite repair_and_retry_run.
  destruct (call_code_fixer _ _ _ _ _ _) as [[fixed_code|e'] w2].
  - rewrite after_after, <- (assoc_L (++)). by eapply Hrepair.
  - unfold after; simpl. rewrite <- (assoc_L (++)). by eapply Hfixer.
Qed.

End Activations.

Section WholeRuns.
Context `{Host}.
Implicit Types (self : CodeGenerationPipeline) (w : World) (tr : TestCases).
Implicit Types (pre rest : list event) (e : exn) (o : result unit).
Implicit Types (task code src ft said : string) (headline : string → string).

Lemma attempt_passed_length tr (passed remaining : list (string * string))
    name t :
  named_tests tr = passed ++ (name, t) :: remaining → length passed ≤ 2.
Proof.
  intros Hsplit. apply (f_equal length) in Hsplit.
  rewrite length_app in Hsplit. simpl in Hsplit. lia.
Qed.

(** *** Routing of failures *)

Lemma routed_attempt task code tr pre src ft headline e rest :
  attempt code tr pre src ft headline e →
  routed_from (λ fixed_code t, routed task (named_tests tr) fixed_code AtCode t)
    task code ft headline e rest →
  routed task (named_tests tr) code AtCode (pre ++ rest).
Proof.
  destruct 1 as [e|passed name t remaining e Hsplit]; intros Hrest.
  { cbn [app routed stage_source]. by split. }
  destruct tr as [t1 t2 t3]. unfold named_tests in *. simpl in Hsplit.
  destruct passed as [|[n1 s1] [|[n2 s2] [|[n3 s3] passed]]];
    simplify_eq/=; [by repeat split..|].
  by destruct passed.
Qed.


(** *** The candidate is evaluated first *)

Lemma candidate_first_passes candidate srcs rest :
  candidate_first candidate true (passes srcs ++ rest) ↔
  candidate_first candidate true rest.
Proof. induction srcs as [|src srcs IH]; simpl; done. Qed.

Lemma candidate_first_attempt code tr pre src ft headline e rest :
  attempt code tr pre src ft headline e →
  (∀ clean, candidate_first code clean rest) →
  candidate_first code false (pre ++ rest).
Proof.
  destruct 1; intros Hrest; [by simpl|].
  rewrite <- !(assoc_L (++)). cbn [app candidate_first].
  split; [done|]. rewrite candidate_first_passes. simpl. apply Hrest.
Qed.

(** X2.  Tests wait for the candidate: in every validation, from the start
    and after each repair, no text other than the current candidate is
    evaluated until the candidate has been evaluated without raising. *)
Theorem tests_wait_for_a_clean_candidate self fuel task code tr w :
  candidate_first code false
    (trace (_run_code_and_tests self fuel task code tr w)).
Proof.
  revert fuel code w.
  apply (validation_ind self task tr
           (λ _ code r, candidate_first code false (trace r)));
    simpl.
  - done.
  - done.
  - intros _ code pre src ft headline e _ Hattempt Hcls.
    rewrite <- (right_id_L [] (++) pre).
    by apply (candidate_first_attempt _ _ _ _ _ _ _ _ Hattempt).
  - intros _ code pre src ft headline e e' _ Hattempt Hcls Hstr.
    rewrite <- (right_id_L [] (++) pre).
    by apply (candidate_first_attempt _ _ _ _ _ _ _ _ Hattempt).
  - intros _ code pre src ft headline e said e' _ Hattempt Hcls Hstr.
    by apply (candidate_first_attempt _ _ _ _ _ _ _ _ Hattempt).
  - intros _ code pre src ft headline e said fixed_code sub Hattempt Hcls Hstr
      Hsub.
    rewrite <- (assoc_L (++)).
    by apply (candidate_first_attempt _ _ _ _ _ _ _ _ Hattempt).
Qed.

(** *** Counting *)

Lemma evaluations_app (t1 t2 : list event) :
  evaluations (t1 ++ t2) = evaluations t1 + evaluations t2.
Proof. induction t1 as [|[] t1 IH]; simpl; by rewrite ?IH. Qed.

Lemma evaluations_passes srcs : evaluations (passes srcs) = length srcs.
Proof. induction srcs as [|src srcs IH]; simpl; by rewrite ?IH. Qed.

Lemma repairs_passes srcs : repairs (passes srcs) = 0.
Proof. induction srcs as [|src srcs IH]; simpl; done. Qed.

Lemma attempt_counts code tr pre src ft headline e :
  attempt code tr pre src ft headline e →
  repairs pre = 0 ∧ 1 ≤ evaluations pre ≤ 4.
Proof.
  destruct 1 as [e|passed name t remaining e Hsplit]; [simpl; lia|].
  apply attempt_passed_length in Hsplit.
  rewrite !repairs_app, !evaluations_app, repairs_passes, evaluations_passes,
    length_fmap.
  simpl. lia.
Qed.

(** X3.  A validation evaluates at most four texts for each activation (the
    candidate and the three tests) and calls the fixer only after an
    evaluation: the number of fixer calls is at most the number of
    evaluations, which is at most four times the number of fixer calls plus
    four. *)
Theorem evaluations_are_bounded_by_repairs self fuel task code tr w :
  let t := trace (_run_code_and_tests self fuel task code tr w) in
  repairs t ≤ evaluations t ≤ 4 * S (repairs t).
Proof.
  cbn zeta. revert fuel code w.
  apply (validation_ind self task tr
           (λ _ _ r, repairs (trace r) ≤ evaluations (trace r)
                                       ≤ 4 * S (repairs (trace r)))).
  - simpl. lia.
  - simpl. lia.
  - intros _ code pre src ft headline e w Hattempt Hcls.
    apply attempt_counts in Hattempt. simpl. lia.
  - intros _ code pre src ft headline e e' w Hattempt Hcls Hstr.
    apply attempt_counts in Hattempt. simpl. lia.
  - intros _ code pre src ft headline e said e' w Hattempt Hcls Hstr.
    apply attempt_counts in Hattempt.
    cbn [trace]. rewrite !repairs_app, !evaluations_app. simpl. lia.
  - intros _ code pre src ft headline e said fixed_code sub Hattempt Hcls Hstr
      Hsub.
    apply attempt_counts in Hattempt.
    rewrite after_trace, !repairs_app, !evaluations_app. simpl. lia.
Qed.

(** *** Outcome and trace *)

Lemma explains_passes o srcs rest :
  explains o (passes srcs ++ rest) ↔ explains o rest.
Proof. induction srcs as [|src srcs IH]; simpl; done. Qed.

Lemma explains_attempt code tr pre src ft headline e o rest :
  attempt code tr pre src ft headline e →
  explains o (pre ++ rest) ↔
  if is_Exception e then
    match str e with
    | Ok _ => explains o rest
    | Err e' => rest = [] ∧ o = Raise e'
    end
  else rest = [] ∧ o = Raise e.
Proof.
  destruct 1; [done|].
  rewrite <- !(assoc_L (++)). cbn [app explains]. by rewrite explains_passes.
Qed.

(** X4.  The outcome of a validation can be read off its trace.  An
    evaluation that raises past [except Exception] and a fixer call that
    raises are never followed by anything, and the run raises that very
    exception; an evaluation that raises an [Exception] of which [str]
    raises is never followed by anything either, and the run raises what
    [str] raised; a run whose trace holds no such event does not raise. *)
Theorem fatal_events_end_the_run self fuel task code tr w :
  explains (outcome (_run_code_and_tests self fuel task code tr w))
    (trace (_run_code_and_tests self fuel task code tr w)).
Proof.
  revert fuel code w.
  apply (validation_ind self task tr
           (λ _ _ r, explains (outcome r) (trace r))).
  - done.
  - done.
  - intros _ code pre src ft headline e w Hattempt Hcls. cbn [outcome trace].
    rewrite <- (right_id_L [] (++) pre).
    apply (explains_attempt _ _ _ _ _ _ _ _ _ Hattempt). by rewrite Hcls.
  - intros _ code pre src ft headline e e' w Hattempt Hcls Hstr.
    cbn [outcome trace]. rewrite <- (right_id_L [] (++) pre).
    apply (explains_attempt _ _ _ _ _ _ _ _ _ Hattempt).
    by rewrite Hcls, Hstr.
  - intros _ code pre src ft headline e said e' w Hattempt Hcls Hstr.
    cbn [outcome trace].
    apply (explains_attempt _ _ _ _ _ _ _ _ _ Hattempt).
    by rewrite Hcls, Hstr.
  - intros _ code pre src ft headline e said fixed_code sub Hattempt Hcls Hstr
      Hsub.
    rewrite after_trace, <- (assoc_L (++)).
    change (outcome (after _ sub)) with (outcome sub).
    apply (explains_attempt _ _ _ _ _ _ _ _ _ Hattempt).
    by rewrite Hcls, Hstr.
Qed.

End WholeRuns.

(** ** The success message *)

Section SuccessMessage.
Context `{Host}.
Implicit Types (self : CodeGenerationPipeline) (w : World) (tr : TestCases).
Implicit Types (pre : list event) (e : exn).
Implicit Types (task code src ft said : string) (headline : string → string).

Lemma attempt_is_silent code tr pre src ft headline e said :
  attempt code tr pre src ft headline e →
  EvPrint "All generated tests passed"
    ∉ pre ++ failure_report (headline said).
Proof.
  intros Hattempt Hin.
  destruct Hattempt as [e|passed name t remaining e Hsplit];
    unfold failure_report, passes in Hin;
    rewrite ?elem_of_app, ?elem_of_cons, ?elem_of_nil, ?list_elem_of_fmap
      in Hin;
    repeat match goal with
           | Hor : _ ∨ _ |- _ => destruct Hor
           | Hex : ∃ _, _ |- _ => destruct Hex as [? [? ?]]
           end;
    try done; simplify_eq/=.
Qed.

(** X5.  The line [All generated tests passed] is printed exactly by the
    runs that return: a validation that raises, or that has not ended,
    never prints it, and one that returns always does. *)
Theorem success_is_printed_iff_the_run_returns self fuel task code tr w :
  EvPrint "All generated tests passed"
    ∈ trace (_run_code_and_tests self fuel task code tr w)
  ↔ outcome (_run_code_and_tests self fuel task code tr w) = Return tt.
Proof.
  revert fuel code w.
  apply (validation_ind self task tr
           (λ _ _ r, EvPrint "All generated tests passed" ∈ trace r
                     ↔ outcome r = Return tt)).
  - intros code w. cbn [trace outcome]. by rewrite elem_of_nil.
  - intros _ code w. cbn [trace outcome]. split; [done|intros _].
    by apply (list_elem_of_lookup_2 _ 6).
  - intros _ code pre src ft headline e w Hattempt Hcls. cbn [trace outcome].
    split; [|done]. intros Hin.
    destruct (attempt_is_silent _ _ _ _ _ _ _ "" Hattempt).
    apply elem_of_app. by left.
  - intros _ code pre src ft headline e e' w Hattempt Hcls Hstr.
    cbn [trace outcome]. split; [|done]. intros Hin.
    destruct (attempt_is_silent _ _ _ _ _ _ _ "" Hattempt).
    apply elem_of_app. by left.
  - intros _ code pre src ft headline e said e' w Hattempt Hcls Hstr.
    cbn [trace outcome]. split; [|done].
    rewrite (assoc_L (++)), elem_of_app, list_elem_of_singleton.
    intros [Hin|[=]].
    by destruct (attempt_is_silent _ _ _ _ _ _ _ said Hattempt).
  - intros _ code pre src ft headline e said fixed_code sub Hattempt Hcls Hstr
      Hsub.
    rewrite after_trace. change (outcome (after _ sub)) with (outcome sub).
    rewrite <- Hsub, elem_of_app. split; [|by right].
    intros [Hin|Hin]; [exfalso|done].
    rewrite (assoc_L (++)), elem_of_app in Hin. destruct Hin as [Hin|Hin].
    + by destruct (attempt_is_silent _ _ _ _ _ _ _ said Hattempt).
    + rewrite !elem_of_cons, elem_of_nil in Hin.
      by destruct Hin as [[=]|[[=]|[]]].
Qed.

End SuccessMessage.

(** ** Further properties of the script *)

Section Script.
Context `{Host}.
Implicit Types (w : World) (dotenv environ : gmap string string).

(** X6.  Lines 8 to 12 let the script go on exactly when the variable is set
    in the process environment or in the [.env] file; then the assignment of
    line 9 changes nothing, and the environment is the one [load_dotenv]
    made.  Otherwise they raise [TypeError] and nothing is configured. *)
Theorem credential_gate dotenv environ w :
  module_level dotenv environ w =
    if decide (is_Some (environ !! "OPENAI_API_KEY")
               ∨ is_Some (dotenv !! "OPENAI_API_KEY"))
    then Run (Return (load_dotenv dotenv environ)) w
           [EvConfigure "openai/gpt-4o" 1000]
    else Run (Raise (Exn "TypeError" true "str expected, not NoneType")) w [].
Proof.
  unfold module_level, os_getenv, load_dotenv. cbn zeta.
  destruct ((environ ∪ dotenv) !! "OPENAI_API_KEY") as [key|] eqn:Hkey.
  - rewrite decide_True.
    + unfold mbind, M_bind, lift_reply, dspy_configure, mret, M_ret, after.
      simpl. by rewrite insert_id.
    + apply lookup_union_Some_raw in Hkey as [Hkey|[_ Hkey]];
        [left|right]; by rewrite Hkey.
  - apply lookup_union_None in Hkey as [Henv Hfile].
    rewrite decide_False; [done|].
    rewrite Henv, Hfile. by intros [[? [=]]|[? [=]]].
Qed.

(** X7.  With the credential set and the three calls of the teleprompter
    answering, the script configures the language model, primes the
    signature generator, the code generator and the unit test generator on
    the example bank, in this order, and then runs [generate] on the task
    read from the argument vector, with a pipeline that holds the three
    primed modules and a fresh code fixer, in the world the last priming
    left.  Nothing else happens before [generate]. *)
Theorem script_primes_then_generates dotenv environ argv fuel key task
    m1 m2 m3 w w1 w2 w3 :
  let trainset cls :=
    (λ x, with_inputs (dspy_Example x) (input_fields_of cls))
      <$> example_bank in
  os_getenv (load_dotenv dotenv environ) "OPENAI_API_KEY" = Some key →
  BootstrapFewShot_compile (new_module CodeSignatureGenerator)
    (trainset CodeSignatureGenerator) w = (Ok m1, w1) →
  BootstrapFewShot_compile (new_module CodeGenerator)
    (trainset CodeGenerator) w1 = (Ok m2, w2) →
  BootstrapFewShot_compile (new_module UnitTestGenerator)
    (trainset UnitTestGenerator) w2 = (Ok m3, w3) →
  task_of_argv argv = Ok task →
  script dotenv environ argv fuel w =
    after [EvConfigure "openai/gpt-4o" 1000;
           EvCompile CodeSignatureGenerator
             (trainset CodeSignatureGenerator) (Ok m1);
           EvCompile CodeGenerator (trainset CodeGenerator) (Ok m2);
           EvCompile UnitTestGenerator (trainset UnitTestGenerator) (Ok m3)]
      (generate
         (MkPipeline example_bank m1 m2 m3 (new_module CodeFixer))
         fuel task w3).
Proof.
  cbv beta zeta. intros Hkey H1 H2 H3 Htask.
  unfold script.
  rewrite (bind_of_run _ _ _ _ (credential_present_configures _ _ _ _ Hkey)).
  cbn [outcome final trace]. unfold main.
  pose proof (init_run example_bank w) as Hinit. cbv beta zeta in Hinit.
  rewrite H1, H2, H3 in Hinit.
  rewrite (bind_of_run _ _ _ _ Hinit). cbn [outcome final trace].
  unfold mbind at 1, M_bind at 1, lift_reply. rewrite Htask.
  cbn [outcome final trace of_reply]. by rewrite !after_after.
Qed.

(** X8.  A priming that raises is fatal: [main] raises the same exception,
    its trace holds nothing but the calls of the teleprompter, the last of
    which is the one that raised; the argument vector is not looked at, no
    stage module is called and nothing is evaluated. *)
Theorem priming_failure_is_fatal argv fuel w e :
  outcome (__init__ example_bank w) = Raise e →
  main argv fuel w =
    Run (Raise e) (final (__init__ example_bank w))
      (trace (__init__ example_bank w))
  ∧ Forall is_compile (trace (main argv fuel w))
  ∧ ∃ pre cls trainset,
      trace (main argv fuel w) = pre ++ [EvCompile cls trainset (Err e)].
Proof.
  intros Hraise.
  assert (main argv fuel w =
          Run (Raise e) (final (__init__ example_bank w))
            (trace (__init__ example_bank w))) as Hmain.
  { unfold main, mbind, M_bind. cbn zeta. by rewrite Hraise. }
  rewrite Hmain. split; [done|]. cbn [trace]. revert Hraise.
  rewrite init_run. cbn zeta.
  destruct (BootstrapFewShot_compile _ _ w) as [[m1|e1] w1].
  2:{ intros [= ->]. split; [by repeat constructor|]. by eexists [], _, _. }
  destruct (BootstrapFewShot_compile _ _ w1) as [[m2|e2] w2].
  2:{ intros [= ->]. split; [by repeat constructor|]. by eexists [_], _, _. }
  destruct (BootstrapFewShot_compile _ _ w2) as [[m3|e3] w3]; [done|].
  intros [= ->]. split; [by repeat constructor|]. by eexists [_; _], _, _.
Qed.

End Script.

(** The Fibonacci scenario from the command line, with the credential in the
    process environment. *)
Lemma script_primes_then_generates_witness :
  let host := Demo.host Demo.fib_fixed in
  let trainset cls :=
    (λ x, with_inputs (dspy_Example x) (input_fields_of cls))
      <$> example_bank in
  let primed cls := Demo.Bootstrapped (Demo.Fresh cls) (trainset cls) in
  script (H := host) ∅ {["OPENAI_API_KEY" := "sk-test"]}
    ["dspy_code_gen.py"; "--task"; "fib"] 1 None =
    after (H := host)
      [EvConfigure "openai/gpt-4o" 1000;
       EvCompile CodeSignatureGenerator (trainset CodeSignatureGenerator)
         (Ok (primed CodeSignatureGenerator));
       EvCompile CodeGenerator (trainset CodeGenerator)
         (Ok (primed CodeGenerator));
       EvCompile UnitTestGenerator (trainset UnitTestGenerator)
         (Ok (primed UnitTestGenerator))]
      (generate (H := host)
         (MkPipeline (H := host) example_bank
            (primed CodeSignatureGenerator) (primed CodeGenerator)
            (primed UnitTestGenerator) (Demo.Fresh CodeFixer))
         1 "fib" None).
Proof.
  exact (script_primes_then_generates (H := Demo.host Demo.fib_fixed)
           ∅ {["OPENAI_API_KEY" := "sk-test"]}
           ["dspy_code_gen.py"; "--task"; "fib"] 1 "sk-test" "fib"
           _ _ _ None None None None
           eq_refl eq_refl eq_refl eq_refl eq_refl).
Defined.

(** The teleprompter fails on the second module. *)
Lemma priming_failure_is_fatal_witness :
  let r := __init__ (H := Faulty.host) example_bank tt in
  main (H := Faulty.host) ["dspy_code_gen.py"] 1 tt =
    Run (H := Faulty.host) (Raise Faulty.priming_error) (final r) (trace r)
  ∧ Forall is_compile
      (trace (main (H := Faulty.host) ["dspy_code_gen.py"] 1 tt))
  ∧ ∃ pre cls trainset,
      trace (main (H := Faulty.host) ["dspy_code_gen.py"] 1 tt) =
        pre ++ [EvCompile cls trainset (Err Faulty.priming_error)].
Proof.
  exact (priming_failure_is_fatal (H := Faulty.host)
           ["dspy_code_gen.py"] 1 tt Faulty.priming_error eq_refl).
Defined.
